(** * web-fetch-mcp: the page classifier, the content extractor and the
      browser session of the scraper, as a shallow embedding.

    Sources embedded here:
    - [src/src/web-scraper.ts]: [fetchPageSummary], [fetchPageMetadata],
      [fetchLinks], [fetchPageText], [detectPageType];
    - [src/fetch.ts]: [_fetch], [_fetch_meta] and the older private copy
      of [detectPageType];
    - [src/index.ts]: the link and text tools registered at its head;
    - [src/browser.ts]: [getBrowser], [createBrowser], [getStealthScript],
      [getRenderedHtml], and [decodeBingUrl] of the Bing search it ends
      with.

    Conventions.  A JavaScript string is a [string]: one [ascii] per UTF-16
    code unit, so the development covers the strings whose code units are
    below 256.  A JavaScript number is a binary64 [float] where the code
    computes with fractions (the confidence, the caps given to [slice]) and
    a [Z] where it only counts (the score).  [undefined] is [None].  The
    HTML parser and serializer of cheerio are not part of the repository:
    they are section variables ([load], [html]); what the code asks of a
    parsed document (selection, [attr], [text], [children]) is defined on
    an explicit DOM tree. *)

From Stdlib Require Import Bool List NArith ZArith Lia Ascii String.
From Stdlib Require Import Floats.PrimFloat Floats.SpecFloat Floats.FloatOps.
From Stdlib Require Import Numbers.Cyclic.Int63.Uint63.
Import ListNotations.

#[local] Set Warnings "-inexact-float,-register-all".
#[local] Open Scope string_scope.
#[local] Open Scope list_scope.

(* ================================================================== *)
(** ** JavaScript strings and the regular expressions of the source    *)
(* ================================================================== *)

Module JsString.

Definition chars (s : string) : list ascii := list_ascii_of_string s.
Definition str (l : list ascii) : string := string_of_list_ascii l.

Definition code (c : ascii) : nat := nat_of_ascii c.

Definition between (lo hi : nat) (c : ascii) : bool :=
  (lo <=? code c)%nat && (code c <=? hi)%nat.

(** [\s] of a regular expression and the characters [trim] strips
    (WhiteSpace and LineTerminator), among code units below 256:
    TAB, LF, VT, FF, CR, SPACE and NBSP. *)
Definition is_space (c : ascii) : bool :=
  between 9 13 c || (code c =? 32)%nat || (code c =? 160)%nat.

Definition is_char (x : ascii) (c : ascii) : bool := Ascii.eqb x c.

Definition LF : ascii := ascii_of_nat 10.
Definition TAB : ascii := ascii_of_nat 9.
Definition BACKSLASH : ascii := ascii_of_nat 92.
Definition DQUOTE : ascii := ascii_of_nat 34.
Definition SQUOTE : ascii := ascii_of_nat 39.

(** [String.prototype.toLowerCase] on code units below 256. *)
Definition lower (c : ascii) : ascii :=
  if between 65 90 c then ascii_of_nat (code c + 32)
  else if between 192 222 c && negb (code c =? 215)%nat
       then ascii_of_nat (code c + 32)
  else c.

Definition upper_ascii (c : ascii) : ascii :=
  if between 97 122 c then ascii_of_nat (code c - 32) else c.

Definition toLowerCase (s : string) : string := str (map lower (chars s)).

(** [String.prototype.trim]. *)
Fixpoint trimStart (l : list ascii) : list ascii :=
  match l with
  | c :: l' => if is_space c then trimStart l' else l
  | [] => []
  end.

Definition trimEnd (l : list ascii) : list ascii := rev (trimStart (rev l)).

Definition trim (s : string) : string := str (trimEnd (trimStart (chars s))).

(** The fragment of regular expressions the source uses.  Every
    quantifier of the source applies to one character class, so the
    greedy star is a constructor over a class. *)
Inductive regex : Type :=
| Eps
| Cls (p : ascii -> bool)
| Seq (a b : regex)
| Alt (a b : regex)
| Star (p : ascii -> bool).

Definition Chr (c : ascii) : regex := Cls (is_char c).
Definition Plus (p : ascii -> bool) : regex := Seq (Cls p) (Star p).
Definition Opt (r : regex) : regex := Alt r Eps.

Fixpoint Lit_chars (l : list ascii) : regex :=
  match l with
  | [] => Eps
  | [c] => Chr c
  | c :: l' => Seq (Chr c) (Lit_chars l')
  end.
Definition Lit (s : string) : regex := Lit_chars (chars s).

(** A literal under the [i] flag: an ASCII letter of the pattern matches
    both of its cases. *)
Definition chr_i (x : ascii) (c : ascii) : bool :=
  Ascii.eqb (upper_ascii x) (upper_ascii c).
Fixpoint Lit_i_chars (l : list ascii) : regex :=
  match l with
  | [] => Eps
  | [c] => Cls (chr_i c)
  | c :: l' => Seq (Cls (chr_i c)) (Lit_i_chars l')
  end.
Definition Lit_i (s : string) : regex := Lit_i_chars (chars s).

(** Backtracking matcher, in continuation-passing style: [n] counts the
    characters consumed so far, [k] is the rest of the pattern.  The
    first alternative and the longest repetition are tried first, as a
    JavaScript engine does. *)
Fixpoint star (p : ascii -> bool) (s : list ascii) (n : nat)
         (k : list ascii -> nat -> option nat) : option nat :=
  match s with
  | c :: s' =>
      if p c then
        match star p s' (S n) k with
        | Some r => Some r
        | None => k s n
        end
      else k s n
  | [] => k [] n
  end.

Fixpoint matchAt (r : regex) (s : list ascii) (n : nat)
         (k : list ascii -> nat -> option nat) : option nat :=
  match r with
  | Eps => k s n
  | Cls p =>
      match s with
      | c :: s' => if p c then k s' (S n) else None
      | [] => None
      end
  | Seq a b => matchAt a s n (fun s' n' => matchAt b s' n' k)
  | Alt a b =>
      match matchAt a s n k with
      | Some r => Some r
      | None => matchAt b s n k
      end
  | Star p => star p s n k
  end.

(** Length of the match of [r] anchored at the start of [s]. *)
Definition exec (r : regex) (s : list ascii) : option nat :=
  matchAt r s 0 (fun _ n => Some n).

(** [RegExp.prototype.test] and [String.prototype.match] without the
    [g] flag: the leftmost match; [search] gives the matched text. *)
Fixpoint search_chars (r : regex) (s : list ascii) : option (list ascii) :=
  match exec r s with
  | Some n => Some (firstn n s)
  | None =>
      match s with
      | _ :: s' => search_chars r s'
      | [] => None
      end
  end.

Definition search (r : regex) (s : string) : option string :=
  option_map str (search_chars r (chars s)).

Definition test (r : regex) (s : string) : bool :=
  match search r s with Some _ => true | None => false end.

(** [String.prototype.includes]. *)
Definition includes (s sub : string) : bool := test (Lit sub) s.

(** [s.replace(/r/g, rep)]: matches are found left to right and do not
    overlap; [skip] is the number of characters of the current match
    still to drop.  After an empty match the scan moves one character
    on. *)
Fixpoint replaceFrom (r : regex) (rep : list ascii) (s : list ascii)
         (skip : nat) : list ascii :=
  match skip with
  | S j =>
      match s with
      | _ :: s' => replaceFrom r rep s' j
      | [] => []
      end
  | O =>
      match exec r s with
      | Some (S j) =>
          rep ++ match s with
                 | _ :: s' => replaceFrom r rep s' j
                 | [] => []
                 end
      | Some O =>
          rep ++ match s with
                 | c :: s' => c :: replaceFrom r rep s' 0
                 | [] => []
                 end
      | None =>
          match s with
          | c :: s' => c :: replaceFrom r rep s' 0
          | [] => []
          end
      end
  end.

Definition replaceAll (r : regex) (rep : string) (s : string) : string :=
  str (replaceFrom r (chars rep) (chars s) 0).

End JsString.

(* ================================================================== *)
(** ** JavaScript numbers                                              *)
(* ================================================================== *)

Module JsNumber.

Definition number : Set := float.

(** An integer of the code as a number (exact below [2^53]). *)
Definition of_Z (z : Z) : number :=
  if (z <? 0)%Z then PrimFloat.opp (PrimFloat.of_uint63 (Uint63.of_Z (- z)))
  else PrimFloat.of_uint63 (Uint63.of_Z z).

(** [ToBoolean]: [NaN], [+0] and [-0] are falsy. *)
Definition truthy (x : number) : bool :=
  negb (PrimFloat.is_nan x || PrimFloat.is_zero x).

(** [a >= b]. *)
Definition ge (a b : number) : bool := PrimFloat.leb b a.
(** [a > b]. *)
Definition gt (a b : number) : bool := PrimFloat.ltb b a.

(** [Math.min(a, b)]. *)
Definition Math_min (a b : number) : number :=
  if PrimFloat.is_nan a || PrimFloat.is_nan b then PrimFloat.nan
  else if PrimFloat.ltb a b then a
  else if PrimFloat.ltb b a then b
  else if PrimFloat.get_sign a then a else b.

(** [Math.round(x)]: the integer closest to [x], ties towards
    [+Infinity]; computed exactly on the mantissa and exponent. *)
Definition Math_round (x : number) : number :=
  match Prim2SF x with
  | S754_finite s m e =>
      if (0 <=? e)%Z then x
      else
        let num := if s then Z.neg m else Z.pos m in
        let r := Z.shiftr (2 * num + 2 ^ (- e)) (- e + 1) in
        if (r =? 0)%Z && s then PrimFloat.opp PrimFloat.zero else of_Z r
  | _ => x
  end.

Inductive integerOrInfinity : Set :=
| Finite (z : Z)
| PlusInfinity
| MinusInfinity.

(** [ToIntegerOrInfinity]: [NaN] and the zeros give 0, the rest is
    truncated towards zero. *)
Definition ToIntegerOrInfinity (x : number) : integerOrInfinity :=
  match Prim2SF x with
  | S754_nan => Finite 0
  | S754_zero _ => Finite 0
  | S754_infinity false => PlusInfinity
  | S754_infinity true => MinusInfinity
  | S754_finite s m e =>
      let mag := if (0 <=? e)%Z then Z.shiftl (Z.pos m) e
                 else Z.shiftr (Z.pos m) (- e) in
      Finite (if s then (- mag)%Z else mag)
  end.

(** [l.slice(0, end)]. *)
Definition slice0 {A : Type} (l : list A) (end_ : number) : list A :=
  let len := Z.of_nat (List.length l) in
  let final :=
    match ToIntegerOrInfinity end_ with
    | MinusInfinity => 0%Z
    | Finite r => if (r <? 0)%Z then Z.max (len + r) 0 else Z.min r len
    | PlusInfinity => len
    end in
  firstn (Z.to_nat final) l.

End JsNumber.

(* ================================================================== *)
(** ** The parsed document and the cheerio calls of the source         *)
(* ================================================================== *)

Module Dom.
Import JsString.

(** A node of the tree cheerio builds: tag and attribute names are in
    lower case, as the HTML parser leaves them. *)
Inductive node : Type :=
| Text (data : string)
| Comment (data : string)
| Element (name : string) (attribs : list (string * string))
          (childNodes : list node).

(** The children of the document root. *)
Definition document : Type := list node.

Definition isTag (n : node) : bool :=
  match n with Element _ _ _ => true | _ => false end.

(** The first attribute of that name. *)
Fixpoint getAttribute (name : string) (attribs : list (string * string))
  : option string :=
  match attribs with
  | [] => None
  | (k, v) :: rest =>
      if String.eqb k name then Some v else getAttribute name rest
  end.

(** The elements of a subtree, in document order. *)
Fixpoint subtree (n : node) : list node :=
  match n with
  | Element _ _ cs => n :: flat_map subtree cs
  | _ => []
  end.

Definition elements (d : document) : list node := flat_map subtree d.

(** [textContent]: the text nodes below a node, concatenated; the text
    of a script or style element counts, a comment does not. *)
Fixpoint textContent (n : node) : string :=
  match n with
  | Text data => data
  | Comment _ => ""
  | Element _ _ cs => String.concat "" (map textContent cs)
  end.

(** The selectors the source writes. *)
Inductive selector : Type :=
| ByTag (tag : string)                        (* [a]                 *)
| ById (id : string)                          (* [#root]             *)
| HasAttr (attr : string)                     (* [[ng-version]]      *)
| AttrContains (attr value : string)          (* [[id*="root"]]      *)
| TagHasAttr (tag attr : string)              (* [meta[charset]]     *)
| TagAttrEq (tag attr value : string).        (* [meta[name="x"]]    *)

(** Attributes whose values an HTML document compares without regard
    to case in a selector. *)
Definition caseInsensitiveAttributes : list string :=
  [ "accept"; "accept-charset"; "align"; "alink"; "axis"; "bgcolor";
    "charset"; "checked"; "clear"; "codetype"; "color"; "compact";
    "declare"; "defer"; "dir"; "direction"; "disabled"; "enctype";
    "face"; "frame"; "hreflang"; "http-equiv"; "lang"; "language";
    "link"; "media"; "method"; "multiple"; "nohref"; "noresize";
    "noshade"; "nowrap"; "readonly"; "rel"; "rev"; "rules"; "scope";
    "scrolling"; "selected"; "shape"; "target"; "text"; "type";
    "valign"; "valuetype"; "vlink" ].

Definition valueEquals (attr expected actual : string) : bool :=
  if existsb (String.eqb attr) caseInsensitiveAttributes
  then String.eqb (toLowerCase expected) (toLowerCase actual)
  else String.eqb expected actual.

Definition matches (sel : selector) (n : node) : bool :=
  match n with
  | Element name attribs _ =>
      match sel with
      | ByTag tag => String.eqb name tag
      | ById id =>
          match getAttribute "id" attribs with
          | Some v => String.eqb v id
          | None => false
          end
      | HasAttr attr =>
          match getAttribute attr attribs with
          | Some _ => true
          | None => false
          end
      | AttrContains attr value =>
          match getAttribute attr attribs with
          | Some v => negb (String.eqb value "") && includes v value
          | None => false
          end
      | TagHasAttr tag attr =>
          String.eqb name tag &&
          match getAttribute attr attribs with
          | Some _ => true
          | None => false
          end
      | TagAttrEq tag attr value =>
          String.eqb name tag &&
          match getAttribute attr attribs with
          | Some v => valueEquals attr value v
          | None => false
          end
      end
  | _ => false
  end.

(** [$(selector)]: the matching elements, in document order. *)
Definition select (d : document) (sel : selector) : list node :=
  filter (matches sel) (elements d).

(** [.attr(name)]: the attribute of the first element of the
    selection, [undefined] when there is none. *)
Definition attr (selection : list node) (name : string) : option string :=
  match selection with
  | Element _ attribs _ :: _ => getAttribute name attribs
  | _ => None
  end.

(** [.text()]: the text of every element of the selection. *)
Definition text (selection : list node) : string :=
  String.concat "" (map textContent selection).

(** [.children()]: the element children of the selection. *)
Definition children (selection : list node) : list node :=
  flat_map (fun n => match n with
                     | Element _ _ cs => filter isTag cs
                     | _ => []
                     end) selection.

(** [a || b] on strings that may be [undefined]: the first operand
    unless it is [undefined] or empty. *)
Definition orElse (a : option string) (b : string) : string :=
  match a with
  | Some v => if String.eqb v "" then b else v
  | None => b
  end.

(** [a || undefined]. *)
Definition orUndefined (a : option string) : option string :=
  match a with
  | Some v => if String.eqb v "" then None else Some v
  | None => None
  end.

(** [a || b || undefined]. *)
Definition orElseUndefined (a b : option string) : option string :=
  match orUndefined a with
  | Some v => Some v
  | None => orUndefined b
  end.

End Dom.

(* ================================================================== *)
(** ** Asynchronous operations                                         *)
(* ================================================================== *)

(** An [async] function of the scraper is a tree of the two things it
    awaits: the static request ([fetch(url)] followed by [resp.text()])
    and [getRenderedHtml(url)] of [browser.ts]. *)
Module Async.

Inductive io (A : Type) : Type :=
| Return (a : A)
| Fetch (url : string) (k : string -> io A)
| GetRenderedHtml (url : string) (k : string -> io A).
Arguments Return {A} a.
Arguments Fetch {A} url k.
Arguments GetRenderedHtml {A} url k.

Fixpoint bind {A B : Type} (m : io A) (f : A -> io B) : io B :=
  match m with
  | Return a => f a
  | Fetch url k => Fetch url (fun body => bind (k body) f)
  | GetRenderedHtml url k => GetRenderedHtml url (fun body => bind (k body) f)
  end.

Definition fetch_text (url : string) : io string := Fetch url Return.
Definition getRenderedHtml (url : string) : io string :=
  GetRenderedHtml url Return.

(** What the outside answers: the body of a URL, statically and as the
    browser renders it; [None] is a rejected promise. *)
Record world : Type := {
  http : string -> option string;
  rendered : string -> option string
}.

Inductive event : Set :=
| StaticFetch (url : string)
| BrowserRender (url : string).

Inductive outcome (A : Type) : Type :=
| Fulfilled (a : A)
| Rejected (at_ : event).
Arguments Fulfilled {A} a.
Arguments Rejected {A} at_.

(** Running an operation: the requests it made, in order, and how its
    promise settled.  A rejection ends the operation. *)
Fixpoint run {A : Type} (w : world) (m : io A) : list event * outcome A :=
  match m with
  | Return a => ([], Fulfilled a)
  | Fetch url k =>
      match http w url with
      | Some body =>
          let (t, r) := run w (k body) in (StaticFetch url :: t, r)
      | None => ([StaticFetch url], Rejected (StaticFetch url))
      end
  | GetRenderedHtml url k =>
      match rendered w url with
      | Some body =>
          let (t, r) := run w (k body) in (BrowserRender url :: t, r)
      | None => ([BrowserRender url], Rejected (BrowserRender url))
      end
  end.

Definition isRender (e : event) : bool :=
  match e with BrowserRender _ => true | StaticFetch _ => false end.

End Async.

Declare Scope io_scope.
Delimit Scope io_scope with io.
Notation "x <- m ;; k" := (Async.bind m (fun x => k))
  (at level 61, m at next level, right associativity) : io_scope.

(* ================================================================== *)
(** ** src/src/web-scraper.ts                                          *)
(* ================================================================== *)

Module WebScraper.
Import JsString JsNumber Dom Async.

Module Link.
Record t : Set := make { title : string; href : string }.
End Link.

Module Image.
Record t : Set := make { title : string; src : string }.
End Image.

Module PageSummary.
Record t : Set := make {
  url : string;
  title : string;
  links : list Link.t;
  images : list Image.t
}.
End PageSummary.

Module PageMetadata.
Record t : Set := make {
  charset : string;
  title : string;
  description : option string;
  keywords : option string;
  author : option string;
  canonical : option string;
  robots : option string;
  og_title : option string;
  og_description : option string;
  og_image : option string;
  og_url : option string;
  og_type : option string;
  og_site_name : option string;
  twitter_card : option string;
  twitter_image : option string;
  next : option string;
  prev : option string;
  alternate : option string
}.
End PageMetadata.

(** The diagnostic strings pushed on [hints], by the signal that
    pushes them; two of them carry the text interpolated in them. *)
Inductive hint : Set :=
| HintMountPoint
| HintHydration
| HintReact
| HintVueSSR
| HintAngular (version : option string)
| HintFramework (name : string)
| HintFewTextManyScripts
| HintScriptsOutweighText
| HintNoscript
| HintEmptyBody.

Module PageTypeResult.
Record t : Set := make {
  isDynamic : bool;
  confidence : number;
  hints : list hint;
  framework : option string
}.
End PageTypeResult.

(** [score] and [hints] of [detectPageType], updated together. *)
Record tally : Set := { score : Z; hints : list hint }.

Definition bump (w : Z) (h : hint) (t : tally) : tally :=
  {| score := score t + w; hints := hints t ++ [h] |}.

(** [if (c) { score += w; hints.push(h); }] *)
Definition when (c : bool) (w : Z) (h : hint) (t : tally) : tally :=
  if c then bump w h t else t.

Definition mountPoints : list string :=
  ["root"; "app"; "__next"; "nuxt"; "__nuxt"; "__NEXT"].

(** The sources of the hydration patterns; each is a literal. *)
Definition hydrationPatterns : list string :=
  ["__NEXT_DATA__"; "__NUXT__"; "__INITIAL_STATE__"; "__APOLLO_STATE__";
   "__REDUX_STATE__"; "__VUE__"].

(** [/(Next\.js|Nuxt|Gatsby|Vite|Astro|SvelteKit|Remix)/i] *)
Definition generatorPattern : regex :=
  Alt (Lit_i "Next.js") (Alt (Lit_i "Nuxt") (Alt (Lit_i "Gatsby")
  (Alt (Lit_i "Vite") (Alt (Lit_i "Astro") (Alt (Lit_i "SvelteKit")
  (Lit_i "Remix")))))).

Definition positive_length {A : Type} (l : list A) : bool :=
  (0 <? List.length l)%nat.

Definition isSome {A : Type} (o : option A) : bool :=
  match o with Some _ => true | None => false end.

Definition strlen (s : string) : Z := Z.of_nat (String.length s).

Section Cheerio.

(** [cheerio.load]: the parser. *)
Variable load : string -> document.
(** [$(el).html()]: the serializer, on one element. *)
Variable html : node -> string.

(** Steps 1 to 7 of [detectPageType], which also keep what the
    framework name is computed from. *)
Definition hasMountPoint (d : document) : bool :=
  existsb (fun id => positive_length (select d (ById id))
                     || positive_length (select d (AttrContains "id" id)))
          mountPoints.

Definition hydrationMatches (source : string) : list string :=
  filter (fun p => test (Lit p) source) hydrationPatterns.

Definition frameworkMatch (d : document) : option string :=
  let generator :=
    orElse (attr (select d (TagAttrEq "meta" "name" "generator")) "content")
           "" in
  search generatorPattern generator.

Definition bodyText (d : document) : string :=
  trim (text (select d (ByTag "body"))).

Definition scriptCount (d : document) : Z :=
  Z.of_nat (List.length (select d (ByTag "script"))).

Definition scriptTotalLength (d : document) : Z :=
  fold_left Z.add
    (map (fun el => strlen (html el)) (select d (ByTag "script"))) 0%Z.

Definition noscriptHint (d : document) : bool :=
  let noscript := toLowerCase (text (select d (ByTag "noscript"))) in
  includes noscript "javascript" && includes noscript "enable".

Definition bodyChildren (d : document) : Z :=
  Z.of_nat (List.length (children (select d (ByTag "body")))).

Definition signals (source : string) : tally :=
  let d := load source in
  let t := {| score := 0; hints := [] |} in
  (* 1. mount points *)
  let t := when (hasMountPoint d) 3 HintMountPoint t in
  (* 2. hydration data *)
  let n := Z.of_nat (List.length (hydrationMatches source)) in
  let t := when (0 <? n)%Z (n * 2) HintHydration t in
  (* 3. React, Vue and Angular markers *)
  let t := when (positive_length (select d (HasAttr "data-reactroot"))
                 || positive_length (select d (HasAttr "data-reactid")))
                2 HintReact t in
  let t := when (positive_length (select d (HasAttr "data-server-rendered")))
                1 HintVueSSR t in
  let t := when (positive_length (select d (HasAttr "ng-version")))
                1 (HintAngular (attr (select d (HasAttr "ng-version"))
                                     "ng-version")) t in
  (* 4. meta generator *)
  let t := match frameworkMatch d with
           | Some name => bump 2 (HintFramework name) t
           | None => t
           end in
  (* 5. body text against scripts *)
  let t := when ((strlen (bodyText d) <? 100)%Z && (3 <=? scriptCount d)%Z)
                2 HintFewTextManyScripts t in
  let t := when ((50000 <? scriptTotalLength d)%Z
                 && (strlen (bodyText d) <? 500)%Z)
                2 HintScriptsOutweighText t in
  (* 6. noscript *)
  let t := when (noscriptHint d) 1 HintNoscript t in
  (* 7. empty or nearly empty body *)
  let t := when ((bodyChildren d =? 0)%Z
                 || ((bodyChildren d <=? 2)%Z
                     && (strlen (bodyText d) <? 50)%Z))
                3 HintEmptyBody t in
  t.

(** The framework name: [a || b ? "Next.js" : c ? "Nuxt" : undefined]
    groups as [(a || b) ? "Next.js" : (c ? "Nuxt" : undefined)]. *)
Definition detectedFramework (source : string) : option string :=
  let d := load source in
  let captured := match frameworkMatch d with
                  | Some name => negb (String.eqb name "")
                  | None => false
                  end in
  if captured
     || isSome (find (fun p => includes p "NEXT") (hydrationMatches source))
  then Some "Next.js"
  else if isSome (find (fun p => includes p "NUXT")
                       (hydrationMatches source))
  then Some "Nuxt"
  else None.

Definition detectPageType (source : string) : PageTypeResult.t :=
  let t := signals source in
  let confidence :=
    Math_min (PrimFloat.div (of_Z (score t)) 10%float) 1%float in
  let isDynamic := ge confidence 0.3%float in
  {| PageTypeResult.isDynamic := isDynamic;
     PageTypeResult.confidence :=
       PrimFloat.div (Math_round (PrimFloat.mul confidence 100%float))
                     100%float;
     PageTypeResult.hints := hints t;
     PageTypeResult.framework := detectedFramework source |}.

(** The loop over [$("a")] that [fetchPageSummary] and [fetchLinks]
    both run: [push] appends to the end of [links]. *)
Definition pushLink (links : list Link.t) (el : node) : list Link.t :=
  let href := attr [el] "href" in
  let title := orElse (attr [el] "title") (trim (text [el])) in
  match orUndefined href with
  | Some href => links ++ [ {| Link.title := title; Link.href := href |} ]
  | None => links
  end.

Definition collectLinks (d : document) : list Link.t :=
  fold_left pushLink (select d (ByTag "a")) [].

Definition pushImage (images : list Image.t) (el : node) : list Image.t :=
  let src := attr [el] "src" in
  let title := orElse (attr [el] "alt") (orElse (attr [el] "title") "") in
  match orUndefined src with
  | Some src => images ++ [ {| Image.title := title; Image.src := src |} ]
  | None => images
  end.

Definition collectImages (d : document) : list Image.t :=
  fold_left pushImage (select d (ByTag "img")) [].

(** [count ? l.slice(0, count) : l.slice(0, 10)] *)
Definition capped {A : Type} (count : option number) (l : list A) : list A :=
  match count with
  | Some c => if truthy c then slice0 l c else slice0 l 10%float
  | None => slice0 l 10%float
  end.

Definition summarize (url source : string)
           (linkCount imageCount : option number) : PageSummary.t :=
  let d := load source in
  let title := text (select d (ByTag "title")) in
  let links := collectLinks d in
  let images := collectImages d in
  {| PageSummary.url := url;
     PageSummary.title := title;
     PageSummary.links := capped linkCount links;
     PageSummary.images := capped imageCount images |}.

Definition fetchPageSummary (url : string)
           (linkCount imageCount : option number) : io PageSummary.t :=
  (source <- fetch_text url ;;
   Return (summarize url source linkCount imageCount))%io.

Definition getMetaByName (d : document) (name : string) : option string :=
  orUndefined (attr (select d (TagAttrEq "meta" "name" name)) "content").

Definition getMetaByProperty (d : document) (prop : string)
  : option string :=
  orElseUndefined
    (attr (select d (TagAttrEq "meta" "property" prop)) "content")
    (attr (select d (TagAttrEq "meta" "property" prop)) "href").

Definition getLinkByRel (d : document) (rel : string) : option string :=
  orUndefined (attr (select d (TagAttrEq "link" "rel" rel)) "href").

Definition metadataOf (source : string) : PageMetadata.t :=
  let d := load source in
  {| PageMetadata.charset :=
       orElse (attr (select d (TagHasAttr "meta" "charset")) "charset")
              "utf-8";
     PageMetadata.title := text (select d (ByTag "title"));
     PageMetadata.description := getMetaByName d "description";
     PageMetadata.keywords := getMetaByName d "keywords";
     PageMetadata.author := getMetaByName d "author";
     PageMetadata.canonical := getLinkByRel d "canonical";
     PageMetadata.robots := getMetaByName d "robots";
     PageMetadata.og_title := getMetaByProperty d "og:title";
     PageMetadata.og_description := getMetaByProperty d "og:description";
     PageMetadata.og_image := getMetaByProperty d "og:image";
     PageMetadata.og_url := getMetaByProperty d "og:url";
     PageMetadata.og_type := getMetaByProperty d "og:type";
     PageMetadata.og_site_name := getMetaByProperty d "og:site_name";
     PageMetadata.twitter_card := getMetaByProperty d "twitter:card";
     PageMetadata.twitter_image := getMetaByProperty d "twitter:image";
     PageMetadata.next := getLinkByRel d "next";
     PageMetadata.prev := getLinkByRel d "prev";
     PageMetadata.alternate := getLinkByRel d "alternate" |}.

Definition fetchPageMetadata (url : string) : io PageMetadata.t :=
  (source <- fetch_text url ;;
   Return (metadataOf source))%io.

(** [forceHeadless ?? pageType.isDynamic] *)
Definition useHeadless (forceHeadless : option bool)
           (pageType : PageTypeResult.t) : bool :=
  match forceHeadless with
  | Some b => b
  | None => PageTypeResult.isDynamic pageType
  end.

Definition fetchLinks (url : string) (forceHeadless : option bool)
  : io (list Link.t) :=
  (source <- fetch_text url ;;
   let pageType := detectPageType source in
   finalHtml <- (if useHeadless forceHeadless pageType
                 then getRenderedHtml url else Return source) ;;
   Return (collectLinks (load finalHtml)))%io.

(** The pattern of the assignments to strip: [window.__VP_], one or more
    capitals or underscores, [__], [=] with optional blanks around it,
    [JSON.parse(], a quote (single or double), one or more characters
    that are not quotes, a quote, [)] and an optional [;]. *)
Definition quote (c : ascii) : bool := is_char DQUOTE c || is_char SQUOTE c.
Definition vpAssignment : regex :=
  Seq (Lit "window.__VP_")
  (Seq (Plus (fun c => between 65 90 c || is_char "_"%char c))
  (Seq (Lit "__")
  (Seq (Star is_space)
  (Seq (Chr "="%char)
  (Seq (Star is_space)
  (Seq (Lit "JSON.parse(")
  (Seq (Cls quote)
  (Seq (Plus (fun c => negb (quote c)))
  (Seq (Cls quote)
  (Seq (Chr ")"%char)
       (Opt (Chr ";"%char)))))))))))).

(** The chain of [replace] calls and the [trim] that [fetchPageText]
    applies to the text of the body. *)
Definition normalizeText (text : string) : string :=
  let text := replaceAll (Seq (Chr BACKSLASH) (Chr DQUOTE)) (str [DQUOTE]) text in
  let text := replaceAll (Seq (Chr BACKSLASH) (Chr BACKSLASH)) (str [BACKSLASH]) text in
  let text := replaceAll (Seq (Chr BACKSLASH) (Chr "n"%char)) (str [LF]) text in
  let text := replaceAll (Seq (Chr BACKSLASH) (Chr "t"%char)) (str [TAB]) text in
  let text := replaceAll vpAssignment "" text in
  let text := replaceAll (Seq (Star is_space) (Seq (Chr LF) (Star is_space)))
                         (str [LF]) text in
  let text := replaceAll (Seq (Chr LF) (Seq (Chr LF) (Seq (Chr LF)
                              (Star (is_char LF)))))
                         (str [LF; LF]) text in
  let text := replaceAll (Plus (fun c => is_char " "%char c || is_char TAB c))
                         " " text in
  trim text.

Definition fetchPageText (url : string) (forceHeadless : option bool)
  : io string :=
  (source <- fetch_text url ;;
   let pageType := detectPageType source in
   finalHtml <- (if useHeadless forceHeadless pageType
                 then getRenderedHtml url else Return source) ;;
   let text := text (select (load finalHtml) (ByTag "body")) in
   Return (normalizeText text))%io.

End Cheerio.

End WebScraper.

(* ================================================================== *)
(** ** src/fetch.ts                                                    *)
(* ================================================================== *)

(** The private [detectPageType] of [fetch.ts]: the same signals as in
    [web-scraper.ts], with two other weights (a mount point counts 2 and
    a nearly empty body 1) and a strict threshold. *)
Module FetchTs.
Import JsString JsNumber Dom.
Import WebScraper.
Import Async.

(** What [_fetch] returns: links and images are bare addresses. *)
Module WebFetch.
Record t : Set := make {
  url : string;
  title : string;
  links : list string;
  images : list string
}.
End WebFetch.

Section Cheerio.

Variable load : string -> document.
Variable html : node -> string.

Definition pushHref (links : list string) (el : node) : list string :=
  match orUndefined (attr [el] "href") with
  | Some href => links ++ [href]
  | None => links
  end.

Definition pushSrc (images : list string) (el : node) : list string :=
  match orUndefined (attr [el] "src") with
  | Some src => images ++ [src]
  | None => images
  end.

Definition _fetch (url : string) : io WebFetch.t :=
  (source <- fetch_text url ;;
   let d := load source in
   let title := text (select d (ByTag "title")) in
   let links := fold_left pushHref (select d (ByTag "a")) [] in
   let images := fold_left pushSrc (select d (ByTag "img")) [] in
   Return {| WebFetch.url := url;
             WebFetch.title := title;
             WebFetch.links := slice0 links 10%float;
             WebFetch.images := slice0 images 10%float |})%io.

Definition _fetch_meta (url : string) : io PageMetadata.t :=
  (source <- fetch_text url ;;
   let d := load source in
   let getMetaByName := fun name : string =>
     orUndefined (attr (select d (TagAttrEq "meta" "name" name)) "content") in
   let getMetaByProperty := fun prop : string =>
     orElseUndefined
       (attr (select d (TagAttrEq "meta" "property" prop)) "content")
       (attr (select d (TagAttrEq "meta" "property" prop)) "href") in
   Return
     {| PageMetadata.charset :=
          orElse (attr (select d (TagHasAttr "meta" "charset")) "charset")
                 "utf-8";
        PageMetadata.title := text (select d (ByTag "title"));
        PageMetadata.description := getMetaByName "description";
        PageMetadata.keywords := getMetaByName "keywords";
        PageMetadata.author := getMetaByName "author";
        PageMetadata.canonical :=
          orUndefined
            (attr (select d (TagAttrEq "link" "rel" "canonical")) "href");
        PageMetadata.robots := getMetaByName "robots";
        PageMetadata.og_title := getMetaByProperty "og:title";
        PageMetadata.og_description := getMetaByProperty "og:description";
        PageMetadata.og_image := getMetaByProperty "og:image";
        PageMetadata.og_url := getMetaByProperty "og:url";
        PageMetadata.og_type := getMetaByProperty "og:type";
        PageMetadata.og_site_name := getMetaByProperty "og:site_name";
        PageMetadata.twitter_card := getMetaByProperty "twitter:card";
        PageMetadata.twitter_image := getMetaByProperty "twitter:image";
        PageMetadata.next :=
          orUndefined (attr (select d (TagAttrEq "link" "rel" "next")) "href");
        PageMetadata.prev :=
          orUndefined (attr (select d (TagAttrEq "link" "rel" "prev")) "href");
        PageMetadata.alternate :=
          orUndefined
            (attr (select d (TagAttrEq "link" "rel" "alternate")) "href") |})%io.

Definition signals (source : string) : tally :=
  let d := load source in
  let t := {| score := 0; hints := [] |} in
  let t := when (hasMountPoint d) 2 HintMountPoint t in
  let n := Z.of_nat (List.length (hydrationMatches source)) in
  let t := when (0 <? n)%Z (n * 2) HintHydration t in
  let t := when (positive_length (select d (HasAttr "data-reactroot"))
                 || positive_length (select d (HasAttr "data-reactid")))
                2 HintReact t in
  let t := when (positive_length (select d (HasAttr "data-server-rendered")))
                1 HintVueSSR t in
  let t := when (positive_length (select d (HasAttr "ng-version")))
                1 (HintAngular (attr (select d (HasAttr "ng-version"))
                                     "ng-version")) t in
  let t := match frameworkMatch d with
           | Some name => bump 2 (HintFramework name) t
           | None => t
           end in
  let t := when ((strlen (bodyText d) <? 100)%Z && (3 <=? scriptCount d)%Z)
                2 HintFewTextManyScripts t in
  let t := when ((50000 <? scriptTotalLength html d)%Z
                 && (strlen (bodyText d) <? 500)%Z)
                2 HintScriptsOutweighText t in
  let t := when (noscriptHint d) 1 HintNoscript t in
  let t := when ((bodyChildren d =? 0)%Z
                 || ((bodyChildren d <=? 2)%Z
                     && (strlen (bodyText d) <? 50)%Z))
                1 HintEmptyBody t in
  t.

Definition detectPageType (source : string) : PageTypeResult.t :=
  let t := signals source in
  let confidence :=
    Math_min (PrimFloat.div (of_Z (score t)) 10%float) 1%float in
  let isDynamic := gt confidence 0.3%float in
  {| PageTypeResult.isDynamic := isDynamic;
     PageTypeResult.confidence :=
       PrimFloat.div (Math_round (PrimFloat.mul confidence 100%float))
                     100%float;
     PageTypeResult.hints := hints t;
     PageTypeResult.framework := detectedFramework load source |}.

End Cheerio.

End FetchTs.

(* ================================================================== *)
(** ** src/index.ts                                                    *)
(* ================================================================== *)

(** The handlers of the six registered tools.  The text shown beside the
    structured result is kept by what is interpolated in it. *)
Module Index.
Import JsString JsNumber Dom Async WebScraper.

Inductive message : Set :=
| TitleLine (title : string)      (* the title of the page, after a label *)
| LinksFound (count : nat)        (* the number of links, in a sentence   *)
| Excerpt (text : string).        (* the text itself                      *)

Record toolResult (A : Type) : Type := {
  content : list message;
  structuredContent : A
}.
Arguments content {A} _.
Arguments structuredContent {A} _.

Section Cheerio.

Variable load : string -> document.
Variable html : node -> string.

Definition fetch_page_summary (url : string)
           (linkCount imageCount : option number)
  : io (toolResult PageSummary.t) :=
  (result <- fetchPageSummary load url linkCount imageCount ;;
   Return {| content := [TitleLine (PageSummary.title result)];
             structuredContent := result |})%io.

Definition fetch_page_metadata (url : string)
  : io (toolResult PageMetadata.t) :=
  (result <- fetchPageMetadata load url ;;
   Return {| content := [TitleLine (PageMetadata.title result)];
             structuredContent := result |})%io.

Definition fetch_links (url : string) : io (toolResult (list Link.t)) :=
  (result <- fetchLinks load html url (Some false) ;;
   Return {| content := [LinksFound (List.length result)];
             structuredContent := result |})%io.

Definition fetch_links_headless (url : string)
  : io (toolResult (list Link.t)) :=
  (result <- fetchLinks load html url (Some true) ;;
   Return {| content := [LinksFound (List.length result)];
             structuredContent := result |})%io.

(** [result.text.slice(0, 200)] *)
Definition fetch_page_text (url : string) : io (toolResult string) :=
  (result <- fetchPageText load html url (Some false) ;;
   Return {| content := [Excerpt (substring 0 200 result)];
             structuredContent := result |})%io.

Definition fetch_page_text_headless (url : string)
  : io (toolResult string) :=
  (result <- fetchPageText load html url (Some true) ;;
   Return {| content := [Excerpt (substring 0 200 result)];
             structuredContent := result |})%io.

End Cheerio.

End Index.

(* ================================================================== *)
(** ** src/browser.ts                                                  *)
(* ================================================================== *)

(** [getBrowser] and [createBrowser] as coroutines over the two module
    variables [browser] and [stealthScript].  A call runs without
    interruption from one [await] to the next; between two awaits of one
    call, any other call may run.  A schedule lists which call resumes
    next. *)
Module Browser.

(** A launched browser process, named by the order of its launch. *)
Record instance : Set := { pid : nat; connected : bool }.

(** Where a call of [getBrowser] stands. *)
Inductive pc : Set :=
| Called                          (* not yet run                         *)
| AwaitLaunch (b : instance)      (* createBrowser: puppeteer.launch     *)
| AwaitPageSetup (b : instance)   (* newPage, setUserAgent, interception *)
| AwaitStealthFetch (b : instance)(* getStealthScript: fetch, text       *)
| AwaitInjection (b : instance)   (* addScriptTag, evaluateOnNewDocument *)
| AwaitNewPage (b : instance)     (* the reuse branch: browser.newPage   *)
| Returned (b : instance).

Record state : Set := {
  browser : option instance;      (* let browser: Browser | null         *)
  stealthScript : option string;  (* let stealthScript: string | null    *)
  launches : list nat;            (* processes started by puppeteer      *)
  stealthFetches : nat;           (* requests for the stealth script     *)
  calls : list pc                 (* the calls of getBrowser in flight   *)
}.

Definition initial (n : nat) : state :=
  {| browser := None; stealthScript := None; launches := [];
     stealthFetches := 0; calls := repeat Called n |}.

(** [browser === null || !browser.connected] *)
Definition noSession (st : state) : bool :=
  match browser st with
  | None => true
  | Some b => negb (connected b)
  end.

Fixpoint set_nth {A : Type} (i : nat) (x : A) (l : list A) : list A :=
  match l, i with
  | [], _ => []
  | _ :: l', O => x :: l'
  | y :: l', S j => y :: set_nth j x l'
  end.

Definition goto (i : nat) (p : pc) (st : state) : state :=
  {| browser := browser st; stealthScript := stealthScript st;
     launches := launches st; stealthFetches := stealthFetches st;
     calls := set_nth i p (calls st) |}.

(** Call [i] runs up to its next [await] (or to its [return]).
    [stealth] is [mergedConfig.stealth], [body] the text the stealth
    URL serves. *)
Definition resume (stealth : bool) (body : string) (i : nat) (st : state)
  : state :=
  match nth_error (calls st) i with
  | Some Called =>
      if noSession st then
        let b := {| pid := List.length (launches st); connected := true |} in
        goto i (AwaitLaunch b)
             {| browser := browser st; stealthScript := stealthScript st;
                launches := launches st ++ [pid b];
                stealthFetches := stealthFetches st; calls := calls st |}
      else
        match browser st with
        | Some b => goto i (AwaitNewPage b) st
        | None => st
        end
  | Some (AwaitLaunch b) => goto i (AwaitPageSetup b) st
  | Some (AwaitPageSetup b) =>
      if stealth then
        match stealthScript st with
        | None =>
            goto i (AwaitStealthFetch b)
                 {| browser := browser st; stealthScript := stealthScript st;
                    launches := launches st;
                    stealthFetches := S (stealthFetches st);
                    calls := calls st |}
        | Some _ => goto i (AwaitInjection b) st
        end
      else goto i (AwaitInjection b) st
  | Some (AwaitStealthFetch b) =>
      goto i (AwaitInjection b)
           {| browser := browser st; stealthScript := Some body;
              launches := launches st; stealthFetches := stealthFetches st;
              calls := calls st |}
  | Some (AwaitInjection b) =>
      goto i (Returned b)
           {| browser := Some b; stealthScript := stealthScript st;
              launches := launches st; stealthFetches := stealthFetches st;
              calls := calls st |}
  | Some (AwaitNewPage b) => goto i (Returned b) st
  | Some (Returned _) => st
  | None => st
  end.

Definition exec (stealth : bool) (body : string) (schedule : list nat)
           (st : state) : state :=
  fold_left (fun s i => resume stealth body i s) schedule st.

(** A call took the creating branch: it is, or was, inside
    [createBrowser]. *)
Definition created (p : pc) : bool :=
  match p with
  | AwaitLaunch _ | AwaitPageSetup _ | AwaitStealthFetch _
  | AwaitInjection _ => true
  | _ => false
  end.

End Browser.

(* ================================================================== *)
(** ** search-engines/bing.ts (in src/browser.ts)                      *)
(* ================================================================== *)

(** [decodeBingUrl].  [atob] is the forgiving base64 decoding of the
    platform, on a text of code units below 256; what it returns is a
    text of bytes.  [URLSearchParams] is the parser of the URL standard:
    it takes the whole text it is given for a query, and what it decodes
    may hold code units of 256 and more, so its names and values are lists
    of code units. *)
Module Bing.
Import JsString.

(** The value of a character of the base64 alphabet. *)
Definition sextet (c : ascii) : option N :=
  let n := N_of_ascii c in
  if between 65 90 c then Some (n - 65)%N
  else if between 97 122 c then Some (n - 71)%N
  else if between 48 57 c then Some (n + 4)%N
  else if is_char "+"%char c then Some 62%N
  else if is_char "/"%char c then Some 63%N
  else None.

Fixpoint sextets (l : list ascii) : option (list N) :=
  match l with
  | [] => Some []
  | c :: l' =>
      match sextet c, sextets l' with
      | Some n, Some ns => Some (n :: ns)
      | _, _ => None
      end
  end.

(** Four characters give three bytes; three left over give two, two
    give one, the bits in excess being dropped. *)
Fixpoint bytesOfSextets (l : list N) : list ascii :=
  match l with
  | a :: b :: c :: d :: rest =>
      ascii_of_N (a * 4 + b / 16)
      :: ascii_of_N ((b mod 16) * 16 + c / 4)
      :: ascii_of_N ((c mod 4) * 64 + d)
      :: bytesOfSextets rest
  | [a; b; c] =>
      [ascii_of_N (a * 4 + b / 16); ascii_of_N ((b mod 16) * 16 + c / 4)]
  | [a; b] => [ascii_of_N (a * 4 + b / 16)]
  | _ => []
  end.

(** TAB, LF, FF, CR and SPACE. *)
Definition isAsciiWhitespace (c : ascii) : bool :=
  (code c =? 9)%nat || (code c =? 10)%nat || (code c =? 12)%nat
  || (code c =? 13)%nat || (code c =? 32)%nat.

(** One or two [=] at the end are removed. *)
Definition withoutPadding (l : list ascii) : list ascii :=
  match rev l with
  | c1 :: c2 :: r =>
      if is_char "="%char c1
      then if is_char "="%char c2 then rev r else rev (c2 :: r)
      else l
  | [c1] => if is_char "="%char c1 then [] else l
  | [] => l
  end.

(** [atob(data)]; [None] when it throws. *)
Definition atob (data : string) : option string :=
  let l := filter (fun c => negb (isAsciiWhitespace c)) (chars data) in
  let l := if (List.length l mod 4 =? 0)%nat then withoutPadding l else l in
  if (List.length l mod 4 =? 1)%nat then None
  else match sextets l with
       | Some ns => Some (str (bytesOfSextets ns))
       | None => None
       end.

(** [s.replace(/^r/, rep)]: a match is looked for at the start only. *)
Definition replaceAtStart (r : regex) (rep : string) (s : string) : string :=
  match exec r (chars s) with
  | Some n => (rep ++ str (skipn n (chars s)))%string
  | None => s
  end.

(** A text as its UTF-16 code units, and back when all are below 256. *)
Definition units (s : string) : list N := map N_of_ascii (chars s).

Definition narrow (l : list N) : option string :=
  if forallb (fun u => (u <? 256)%N) l then Some (str (map ascii_of_N l))
  else None.

Fixpoint sameUnits (a b : list N) : bool :=
  match a, b with
  | [], [] => true
  | x :: a', y :: b' => (x =? y)%N && sameUnits a' b'
  | _, _ => false
  end.

(** UTF-8 encode, of a text whose code units are below 256. *)
Definition utf8Encode (s : string) : list N :=
  flat_map (fun c => let n := N_of_ascii c in
                     if (n <? 128)%N then [n]
                     else [192 + n / 64; 128 + n mod 64]%N)
           (chars s).

(** The pieces of a byte sequence between the occurrences of [sep]. *)
Fixpoint splitOn (sep : N) (l : list N) : list (list N) :=
  match l with
  | [] => [[]]
  | b :: rest =>
      if (b =? sep)%N then [] :: splitOn sep rest
      else match splitOn sep rest with
           | piece :: pieces => (b :: piece) :: pieces
           | [] => [[b]]
           end
  end.

(** The bytes before the first [sep], all of them when there is none. *)
Fixpoint upTo (sep : N) (l : list N) : list N :=
  match l with
  | [] => []
  | b :: rest => if (b =? sep)%N then [] else b :: upTo sep rest
  end.

(** The bytes after the first [sep], none when there is none. *)
Fixpoint after (sep : N) (l : list N) : list N :=
  match l with
  | [] => []
  | b :: rest => if (b =? sep)%N then rest else after sep rest
  end.

Definition hexDigit (b : N) : option N :=
  if (48 <=? b)%N && (b <=? 57)%N then Some (b - 48)%N
  else if (65 <=? b)%N && (b <=? 70)%N then Some (b - 55)%N
  else if (97 <=? b)%N && (b <=? 102)%N then Some (b - 87)%N
  else None.

(** Percent-decode: [%] and two hexadecimal digits give one byte; a [%]
    followed by anything else stays. *)
Fixpoint percentDecode (l : list N) : list N :=
  match l with
  | [] => []
  | b :: rest =>
      if (b =? 37)%N then
        match rest with
        | h1 :: h2 :: rest' =>
            match hexDigit h1, hexDigit h2 with
            | Some x, Some y => (x * 16 + y)%N :: percentDecode rest'
            | _, _ => b :: percentDecode rest
            end
        | _ => b :: percentDecode rest
        end
      else b :: percentDecode rest
  end.

(** The UTF-8 decoder of the Encoding standard; an error gives U+FFFD. *)
Module Utf8.

Record decoder : Set :=
  { codePoint : N; bytesSeen : N; bytesNeeded : N; lower : N; upper : N }.

Definition initial : decoder :=
  {| codePoint := 0; bytesSeen := 0; bytesNeeded := 0;
     lower := 128; upper := 191 |}.

Definition REPLACEMENT : N := 65533.

(** A byte read when no continuation byte is awaited. *)
Definition lead (b : N) : list N * decoder :=
  if (b <=? 127)%N then ([b], initial)
  else if (194 <=? b)%N && (b <=? 223)%N then
    ([], {| codePoint := N.land b 31; bytesSeen := 0; bytesNeeded := 1;
            lower := 128; upper := 191 |})
  else if (224 <=? b)%N && (b <=? 239)%N then
    ([], {| codePoint := N.land b 15; bytesSeen := 0; bytesNeeded := 2;
            lower := if (b =? 224)%N then 160 else 128;
            upper := if (b =? 237)%N then 159 else 191 |})
  else if (240 <=? b)%N && (b <=? 244)%N then
    ([], {| codePoint := N.land b 7; bytesSeen := 0; bytesNeeded := 3;
            lower := if (b =? 240)%N then 144 else 128;
            upper := if (b =? 244)%N then 143 else 191 |})
  else ([REPLACEMENT], initial).

(** One byte: the code points given out and the next state.  A byte that
    is not the continuation awaited gives an error and is read again as
    a first byte. *)
Definition handler (st : decoder) (b : N) : list N * decoder :=
  if (bytesNeeded st =? 0)%N then lead b
  else if (lower st <=? b)%N && (b <=? upper st)%N then
    let cp := N.lor (N.shiftl (codePoint st) 6) (N.land b 63) in
    let seen := (bytesSeen st + 1)%N in
    if (seen =? bytesNeeded st)%N then ([cp], initial)
    else ([], {| codePoint := cp; bytesSeen := seen;
                 bytesNeeded := bytesNeeded st;
                 lower := 128; upper := 191 |})
  else (REPLACEMENT :: fst (lead b), snd (lead b)).

Fixpoint decodeFrom (st : decoder) (l : list N) : list N :=
  match l with
  | [] => if (bytesNeeded st =? 0)%N then [] else [REPLACEMENT]
  | b :: rest =>
      fst (handler st b) ++ decodeFrom (snd (handler st b)) rest
  end.

(** UTF-8 decode without BOM. *)
Definition decode (l : list N) : list N := decodeFrom initial l.

(** The code units of a code point. *)
Definition utf16 (cp : N) : list N :=
  if (cp <? 65536)%N then [cp]
  else [55296 + (cp - 65536) / 1024; 56320 + (cp - 65536) mod 1024]%N.

End Utf8.

(** A name or a value: [+] stands for a space, then percent-decoding,
    then UTF-8 decoding. *)
Definition decodeComponent (l : list N) : list N :=
  flat_map Utf8.utf16
    (Utf8.decode
       (percentDecode (map (fun b => if (b =? 43)%N then 32%N else b) l))).

(** The [application/x-www-form-urlencoded] parser: the input is split on
    [&], empty pieces are skipped, a piece is split at its first [=]. *)
Definition parseUrlencoded (input : list N) : list (list N * list N) :=
  flat_map (fun piece =>
              match piece with
              | [] => []
              | _ :: _ => [(decodeComponent (upTo 61 piece),
                            decodeComponent (after 61 piece))]
              end)
           (splitOn 38 input).

(** [new URLSearchParams(init)] for a text [init]: one leading [?] is
    removed, the rest is parsed, wherever it comes from. *)
Definition URLSearchParams (init : string) : list (list N * list N) :=
  parseUrlencoded
    (utf8Encode match init with
                | String "?" rest => rest
                | _ => init
                end).

(** [params.get(name)]: the value of the first pair named [name]. *)
Fixpoint get (params : list (list N * list N)) (name : string)
  : option (list N) :=
  match params with
  | [] => None
  | (n, v) :: rest => if sameUnits n (units name) then Some v else get rest name
  end.

(** [decodeBingUrl].  The three replacements leave a code unit of 256 or
    more where it is, and [atob] throws on it: the link is returned. *)
Definition decodeBingUrl (url : string) : string :=
  let u := URLSearchParams url in
  match get u "u" with
  | None => url
  | Some [] => url
  | Some raw =>
      match narrow raw with
      | None => url
      | Some raw =>
          match atob (replaceAll (Chr "-"%char) "+"
                        (replaceAll (Chr "_"%char) "/"
                           (replaceAtStart (Lit "a1") "" raw))) with
          | Some decoded => decoded
          | None => url
          end
      end
  end.

End Bing.

(* ================================================================== *)
(** ** Sample pages                                                    *)
(* ================================================================== *)

(** Pages used to run the code: the text of a page and the tree the
    parser builds from it.  [Samples.load] is the parser on these pages;
    [Samples.html] serializes a script element, whose only children are
    text. *)
Module Samples.
Import JsString Dom.
#[local] Open Scope string_scope.

Definition page (head body : list node) : document :=
  [Element "html" [] [Element "head" [] head; Element "body" [] body]].

Fixpoint lookup (source : string) (pages : list (string * document))
  : document :=
  match pages with
  | [] => page [] []
  | (s, d) :: rest => if String.eqb s source then d else lookup source rest
  end.

Definition emptySource : string :=
  "<html><head></head><body></body></html>".
Definition emptyPage : document := page [] [].

Definition rootSource : string :=
  "<html><head></head><body><div id='root'></div></body></html>".
Definition rootPage : document :=
  page [] [Element "div" [("id", "root")] []].

Definition gatsbySource : string :=
  "<html><head><meta name='generator' content='Gatsby 5.13'></head><body><p>Hello</p><p>World</p><p>!</p></body></html>".
Definition gatsbyPage : document :=
  page [Element "meta" [("name", "generator"); ("content", "Gatsby 5.13")] []]
       [Element "p" [] [Text "Hello"]; Element "p" [] [Text "World"];
        Element "p" [] [Text "!"]].

(** Fifteen anchors; the second and the fourth share an [href], and so
    do the first and the fifth. *)
Definition anchorTargets : list (string * string) :=
  [("/a", "one"); ("/b", "two"); ("/c", "three"); ("/b", "four");
   ("/a", "five"); ("/f", "six"); ("/g", "seven"); ("/h", "eight");
   ("/i", "nine"); ("/j", "ten"); ("/k", "eleven"); ("/l", "twelve");
   ("/m", "thirteen"); ("/n", "fourteen"); ("/o", "fifteen")].

Definition anchorsSource : string :=
  "<html><head></head><body>"
  ++ String.concat ""
       (map (fun a => "<a href='" ++ fst a ++ "'>" ++ snd a ++ "</a>")
            anchorTargets)
  ++ "</body></html>".
Definition anchorsPage : document :=
  page [] (map (fun a => Element "a" [("href", fst a)] [Text (snd a)])
               anchorTargets).

Definition ogSource : string :=
  "<html><head><meta property='og:title' content='T'></head><body></body></html>".
Definition ogPage : document :=
  page [Element "meta" [("property", "og:title"); ("content", "T")] []] [].

(** The body text [Hello], a backslash, [nWorld], the end of that line,
    three blank lines, then [End] (a string of Rocq has no escapes: the
    backslash below is a character); and the same text with the backslash
    doubled. *)
Definition NL : string := str [LF].
Definition helloText : string :=
  "Hello\nWorld" ++ NL ++ NL ++ NL ++ NL ++ "End".
Definition helloText2 : string :=
  "Hello\\nWorld" ++ NL ++ NL ++ NL ++ NL ++ "End".
(** What the pipeline returns on them, and what the specification
    expects: one blank line kept before [End]. *)
Definition helloNormalized : string :=
  "Hello" ++ NL ++ "World" ++ NL ++ "End".
Definition helloExpected : string :=
  "Hello" ++ NL ++ "World" ++ NL ++ NL ++ "End".
Definition helloSource : string :=
  "<html><head></head><body>" ++ helloText ++ "</body></html>".
Definition helloPage : document := page [] [Text helloText].

Definition pages : list (string * document) :=
  [(emptySource, emptyPage); (rootSource, rootPage);
   (gatsbySource, gatsbyPage); (anchorsSource, anchorsPage);
   (ogSource, ogPage); (helloSource, helloPage)].

Definition load (source : string) : document := lookup source pages.
Definition html (el : node) : string := textContent el.

End Samples.

(* ================================================================== *)
(** ** What the properties below are stated with                       *)
(* ================================================================== *)

Module ClassifierSpec.
Import JsString JsNumber Dom WebScraper.

(** The two numbers [detectPageType] derives from a score. *)
Definition rawConfidence (z : Z) : number :=
  Math_min (PrimFloat.div (of_Z z) 10%float) 1%float.
Definition roundedConfidence (z : Z) : number :=
  PrimFloat.div (Math_round (PrimFloat.mul (rawConfidence z) 100%float))
                100%float.

(** No signal of [detectPageType] other than the seventh fires. *)
Definition noOtherSignal (load : string -> document) (html : node -> string)
           (source : string) : Prop :=
  let d := load source in
  hasMountPoint d = false
  /\ hydrationMatches source = []
  /\ select d (HasAttr "data-reactroot") = []
  /\ select d (HasAttr "data-reactid") = []
  /\ select d (HasAttr "data-server-rendered") = []
  /\ select d (HasAttr "ng-version") = []
  /\ frameworkMatch d = None
  /\ (scriptCount d < 3)%Z
  /\ (scriptTotalLength html d <= 50000)%Z
  /\ noscriptHint d = false.

End ClassifierSpec.

Module ExtractorSpec.
Import JsString JsNumber Dom Async WebScraper.

(** What the specification says of links: every anchor with a non-empty
    [href], in document order, labelled by its [title] attribute or else
    by its trimmed text; nothing removed, nothing reordered. *)
Definition linkOf (el : node) : list Link.t :=
  match orUndefined (attr [el] "href") with
  | Some href =>
      [ {| Link.title := orElse (attr [el] "title") (trim (text [el]));
           Link.href := href |} ]
  | None => []
  end.

Definition linksInOrder (d : document) : list Link.t :=
  flat_map linkOf (select d (ByTag "a")).

Definition imageOf (el : node) : list Image.t :=
  match orUndefined (attr [el] "src") with
  | Some src =>
      [ {| Image.title := orElse (attr [el] "alt")
                                 (orElse (attr [el] "title") "");
           Image.src := src |} ]
  | None => []
  end.

Definition imagesInOrder (d : document) : list Image.t :=
  flat_map imageOf (select d (ByTag "img")).


(** The optional fields of [PageMetadata], each with the selector of the
    tag it is read from. *)
Inductive field : Set :=
| Description | Keywords | Author | Canonical | Robots
| OgTitle | OgDescription | OgImage | OgUrl | OgType | OgSiteName
| TwitterCard | TwitterImage | Next | Prev | Alternate.

Definition get (f : field) (m : PageMetadata.t) : option string :=
  match f with
  | Description => PageMetadata.description m
  | Keywords => PageMetadata.keywords m
  | Author => PageMetadata.author m
  | Canonical => PageMetadata.canonical m
  | Robots => PageMetadata.robots m
  | OgTitle => PageMetadata.og_title m
  | OgDescription => PageMetadata.og_description m
  | OgImage => PageMetadata.og_image m
  | OgUrl => PageMetadata.og_url m
  | OgType => PageMetadata.og_type m
  | OgSiteName => PageMetadata.og_site_name m
  | TwitterCard => PageMetadata.twitter_card m
  | TwitterImage => PageMetadata.twitter_image m
  | Next => PageMetadata.next m
  | Prev => PageMetadata.prev m
  | Alternate => PageMetadata.alternate m
  end.

Definition sourceTag (f : field) : selector :=
  match f with
  | Description => TagAttrEq "meta" "name" "description"
  | Keywords => TagAttrEq "meta" "name" "keywords"
  | Author => TagAttrEq "meta" "name" "author"
  | Canonical => TagAttrEq "link" "rel" "canonical"
  | Robots => TagAttrEq "meta" "name" "robots"
  | OgTitle => TagAttrEq "meta" "property" "og:title"
  | OgDescription => TagAttrEq "meta" "property" "og:description"
  | OgImage => TagAttrEq "meta" "property" "og:image"
  | OgUrl => TagAttrEq "meta" "property" "og:url"
  | OgType => TagAttrEq "meta" "property" "og:type"
  | OgSiteName => TagAttrEq "meta" "property" "og:site_name"
  | TwitterCard => TagAttrEq "meta" "property" "twitter:card"
  | TwitterImage => TagAttrEq "meta" "property" "twitter:image"
  | Next => TagAttrEq "link" "rel" "next"
  | Prev => TagAttrEq "link" "rel" "prev"
  | Alternate => TagAttrEq "link" "rel" "alternate"
  end.

(** A world that serves one page. *)
Definition serving (url source : string) : world :=
  {| http := fun u => if String.eqb u url then Some source else None;
     rendered := fun _ => None |}.

(** The addresses alone of a summary: what [_fetch] of [fetch.ts]
    returns. *)
Definition addressesOnly (s : PageSummary.t) : FetchTs.WebFetch.t :=
  {| FetchTs.WebFetch.url := PageSummary.url s;
     FetchTs.WebFetch.title := PageSummary.title s;
     FetchTs.WebFetch.links := map Link.href (PageSummary.links s);
     FetchTs.WebFetch.images := map Image.src (PageSummary.images s) |}.

Definition mapOutcome {A B : Type} (f : A -> B) (o : outcome A) : outcome B :=
  match o with
  | Fulfilled a => Fulfilled (f a)
  | Rejected e => Rejected e
  end.

Definition hasHref (l : Link.t) : bool := negb (String.eqb (Link.href l) "").
Definition hasSrc (i : Image.t) : bool := negb (String.eqb (Image.src i) "").

End ExtractorSpec.

(** The encoding [decodeBingUrl] undoes: base64 with [-] and [_] for
    the last two characters of the alphabet and no padding. *)
Module BingSpec.
Import JsString.

Definition urlAlphabet (n : N) : ascii :=
  if (n <? 26)%N then ascii_of_N (n + 65)
  else if (n <? 52)%N then ascii_of_N (n + 71)
  else if (n <? 62)%N then ascii_of_N (n - 4)
  else if (n =? 62)%N then "-"%char
  else "_"%char.

Fixpoint sextetsOfBytes (l : list ascii) : list N :=
  match l with
  | a :: b :: c :: rest =>
      let x := N_of_ascii a in
      let y := N_of_ascii b in
      let z := N_of_ascii c in
      (x / 4 :: (x mod 4) * 16 + y / 16 :: (y mod 16) * 4 + z / 64
       :: z mod 64 :: sextetsOfBytes rest)%N
  | [a; b] =>
      let x := N_of_ascii a in
      let y := N_of_ascii b in
      [x / 4; (x mod 4) * 16 + y / 16; (y mod 16) * 4]%N
  | [a] =>
      let x := N_of_ascii a in
      [x / 4; (x mod 4) * 16]%N
  | [] => []
  end.

(** The two replacements of [decodeBingUrl] on one character. *)
Definition toStandard (c : ascii) : ascii :=
  let c := if is_char "_"%char c then "/"%char else c in
  if is_char "-"%char c then "+"%char else c.

Definition base64url (target : string) : string :=
  str (map urlAlphabet (sextetsOfBytes (chars target))).

(** The [u] parameter of a redirect link to [target]. *)
Definition redirectParameter (target : string) : string :=
  ("a1" ++ base64url target)%string.

(** A redirect link as Bing writes them: [u] comes after other
    parameters. *)
Definition redirectLink : string :=
  "https://www.bing.com/ck/a?!&&p=6f0d1e&ptn=3&u=a1aHR0cHM6Ly9leGFtcGxlLmNvbS8_YT0x&ntb=1".

(** The same address with [u] as the first parameter. *)
Definition shortLink : string :=
  "https://www.bing.com/ck/a?u=a1aHR0cHM6Ly9leGFtcGxlLmNvbS8_YT0x".

End BingSpec.

Module SessionSpec.
Import Browser.

Definition started (p : pc) : bool :=
  match p with Called => false | _ => true end.

(** Before any call has assigned [browser], every call that has begun is
    inside [createBrowser] and has started a process of its own. *)
Definition unassigned (st : state) : Prop :=
  browser st = None ->
  Forall (fun p => p = Called \/ created p = true) (calls st)
  /\ List.length (launches st) = List.length (filter created (calls st)).


Definition awaitsStealth (p : pc) : bool :=
  match p with AwaitStealthFetch _ => true | _ => false end.

End SessionSpec.

Module TextSpec.
Import JsString.

Fixpoint takeWhile (p : ascii -> bool) (l : list ascii) : list ascii :=
  match l with
  | c :: l' => if p c then c :: takeWhile p l' else []
  | [] => []
  end.

Fixpoint dropWhile (p : ascii -> bool) (l : list ascii) : list ascii :=
  match l with
  | c :: l' => if p c then dropWhile p l' else l
  | [] => []
  end.

(** No line feed of [l] follows a line feed; [prev] tells whether the
    character before [l] is one. *)
Fixpoint single (prev : bool) (l : list ascii) : bool :=
  match l with
  | [] => true
  | c :: l' =>
      if is_char LF c then negb prev && single true l' else single false l'
  end.

Definition blanksAroundLF : regex :=
  Seq (Star is_space) (Seq (Chr LF) (Star is_space)).
Definition threeOrMoreLF : regex :=
  Seq (Chr LF) (Seq (Chr LF) (Seq (Chr LF) (Star (is_char LF)))).
Definition spaceOrTab (c : ascii) : bool :=
  is_char " "%char c || is_char TAB c.

(** A pattern that cannot match the empty text: some part that every
    match goes through takes a character. *)
Fixpoint consuming (r : regex) : bool :=
  match r with
  | Eps => false
  | Cls _ => true
  | Seq a b => consuming a || consuming b
  | Alt a b => consuming a && consuming b
  | Star _ => false
  end.

(** [R] holds of every two neighbours of [prev :: l]. *)
Fixpoint pairwise (R : ascii -> ascii -> bool) (prev : ascii)
         (l : list ascii) : bool :=
  match l with
  | [] => true
  | c :: l' => R prev c && pairwise R c l'
  end.

Definition chain (R : ascii -> ascii -> bool) (l : list ascii) : bool :=
  match l with
  | [] => true
  | c :: l' => pairwise R c l'
  end.

(** A line feed and a blank are not neighbours. *)
Definition lfApart (a b : ascii) : bool :=
  negb (is_char LF a && is_space b) && negb (is_space a && is_char LF b).

(** Two spaces are not neighbours. *)
Definition notTwoSpaces (a b : ascii) : bool :=
  negb (is_char " "%char a && is_char " "%char b).

Definition firstIsBlank (l : list ascii) : bool :=
  match l with
  | c :: _ => is_space c
  | [] => false
  end.

(** The text, cut at its line feeds, has no empty line and no line that
    starts or ends with a blank. *)
Definition linesTidy (l : list ascii) : bool :=
  negb (firstIsBlank l) && negb (firstIsBlank (rev l)) && chain lfApart l.

(** The text has no tab and no two spaces in a row. *)
Definition spacesSingle (l : list ascii) : bool :=
  forallb (fun c => negb (is_char TAB c)) l && chain notTwoSpaces l.

End TextSpec.

(* ================================================================== *)
(** ** The classifier                                                  *)
(* ================================================================== *)

Module ClassifierFacts.
Import JsString JsNumber Dom WebScraper ClassifierSpec.

Lemma when_score c w h t :
  score (when c w h t) = (score t + (if c then w else 0))%Z.
Proof. destruct c; simpl; lia. Qed.

Lemma hydrationMatches_length source :
  (List.length (hydrationMatches source) <= 6)%nat.
Proof.
  unfold hydrationMatches.
  etransitivity; [apply filter_length_le|]. simpl. lia.
Qed.

(** On every score a page can reach, rounding to two decimals changes
    nothing, the confidence is the capped score over ten, and the two
    thresholds of the two copies are [3] and [4] points. *)
Lemma confidence_table (n : nat) :
  (n < 30)%nat ->
  let z := Z.of_nat n in
  roundedConfidence z = PrimFloat.div (of_Z (Z.min z 10)) 10%float
  /\ PrimFloat.leb 0%float (roundedConfidence z) = true
  /\ PrimFloat.leb (roundedConfidence z) 1%float = true
  /\ ge (rawConfidence z) 0.3%float = (3 <=? z)%Z
  /\ ge (roundedConfidence z) 0.3%float = (3 <=? z)%Z
  /\ gt (rawConfidence z) 0.3%float = (4 <=? z)%Z
  /\ gt (roundedConfidence z) 0.3%float = (4 <=? z)%Z.
Proof.
  intros H.
  do 30 (destruct n as [|n];
         [vm_compute; repeat split; reflexivity|]).
  lia.
Qed.

Section Scores.

Variable load : string -> document.
Variable html : node -> string.

(** The score of [web-scraper.ts], signal by signal. *)
Lemma signals_score source :
  let d := load source in
  score (signals load html source) =
  ((if hasMountPoint d then 3 else 0)
   + 2 * Z.of_nat (List.length (hydrationMatches source))
   + (if positive_length (select d (HasAttr "data-reactroot"))
         || positive_length (select d (HasAttr "data-reactid")) then 2 else 0)
   + (if positive_length (select d (HasAttr "data-server-rendered"))
      then 1 else 0)
   + (if positive_length (select d (HasAttr "ng-version")) then 1 else 0)
   + (if isSome (frameworkMatch d) then 2 else 0)
   + (if (strlen (bodyText d) <? 100) && (3 <=? scriptCount d) then 2 else 0)
   + (if (50000 <? scriptTotalLength html d) && (strlen (bodyText d) <? 500)
      then 2 else 0)
   + (if noscriptHint d then 1 else 0)
   + (if (bodyChildren d =? 0)
         || ((bodyChildren d <=? 2) && (strlen (bodyText d) <? 50))
      then 3 else 0))%Z.
Proof.
  intros d. unfold signals. fold d.
  rewrite !when_score.
  destruct (frameworkMatch d); cbn [isSome bump score];
    rewrite !when_score; cbn [score];
    destruct (0 <? Z.of_nat (List.length (hydrationMatches source)))%Z eqn:E;
    try (apply Z.ltb_ge in E); lia.
Qed.

(** The score of [fetch.ts], signal by signal. *)
Lemma legacy_signals_score source :
  let d := load source in
  score (FetchTs.signals load html source) =
  ((if hasMountPoint d then 2 else 0)
   + 2 * Z.of_nat (List.length (hydrationMatches source))
   + (if positive_length (select d (HasAttr "data-reactroot"))
         || positive_length (select d (HasAttr "data-reactid")) then 2 else 0)
   + (if positive_length (select d (HasAttr "data-server-rendered"))
      then 1 else 0)
   + (if positive_length (select d (HasAttr "ng-version")) then 1 else 0)
   + (if isSome (frameworkMatch d) then 2 else 0)
   + (if (strlen (bodyText d) <? 100) && (3 <=? scriptCount d) then 2 else 0)
   + (if (50000 <? scriptTotalLength html d) && (strlen (bodyText d) <? 500)
      then 2 else 0)
   + (if noscriptHint d then 1 else 0)
   + (if (bodyChildren d =? 0)
         || ((bodyChildren d <=? 2) && (strlen (bodyText d) <? 50))
      then 1 else 0))%Z.
Proof.
  intros d. unfold FetchTs.signals. fold d.
  rewrite !when_score.
  destruct (frameworkMatch d); cbn [isSome bump score];
    rewrite !when_score; cbn [score];
    destruct (0 <? Z.of_nat (List.length (hydrationMatches source)))%Z eqn:E;
    try (apply Z.ltb_ge in E); lia.
Qed.

Lemma signals_score_range source :
  (0 <= score (signals load html source) <= 29)%Z.
Proof.
  rewrite signals_score. cbv zeta.
  pose proof (hydrationMatches_length source).
  repeat match goal with |- context [if ?c then _ else _] => destruct c end;
    lia.
Qed.

Lemma legacy_signals_score_range source :
  (0 <= score (FetchTs.signals load html source) <= 26)%Z.
Proof.
  rewrite legacy_signals_score. cbv zeta.
  pose proof (hydrationMatches_length source).
  repeat match goal with |- context [if ?c then _ else _] => destruct c end;
    lia.
Qed.

Lemma confidence_of_score (z : Z) :
  (0 <= z <= 29)%Z ->
  roundedConfidence z = PrimFloat.div (of_Z (Z.min z 10)) 10%float
  /\ PrimFloat.leb 0%float (roundedConfidence z) = true
  /\ PrimFloat.leb (roundedConfidence z) 1%float = true
  /\ ge (rawConfidence z) 0.3%float = (3 <=? z)%Z
  /\ ge (roundedConfidence z) 0.3%float = (3 <=? z)%Z
  /\ gt (rawConfidence z) 0.3%float = (4 <=? z)%Z
  /\ gt (roundedConfidence z) 0.3%float = (4 <=? z)%Z.
Proof.
  intros H.
  pose proof (confidence_table (Z.to_nat z)) as T.
  cbv zeta in T. rewrite Z2Nat.id in T by lia.
  apply T. lia.
Qed.

End Scores.

End ClassifierFacts.

Module Classifier.
Import JsString JsNumber Dom WebScraper ClassifierSpec ClassifierFacts.

(** C1 (as amended).  For every HTML input, both copies of
    [detectPageType] return a confidence in [0,1]; in [web-scraper.ts] it
    is the score capped at 10 and divided by 10 (rounding to two decimals
    changes nothing) and [isDynamic] equals [confidence >= 0.3]; in the
    private copy of [fetch.ts], [isDynamic] equals [confidence > 0.3]. *)
Theorem detectPageType_confidence :
  forall (load : string -> document) (html : node -> string)
         (source : string),
    let r := WebScraper.detectPageType load html source in
    let s := score (WebScraper.signals load html source) in
    let r' := FetchTs.detectPageType load html source in
    PageTypeResult.confidence r = PrimFloat.div (of_Z (Z.min s 10)) 10%float
    /\ PrimFloat.leb 0%float (PageTypeResult.confidence r) = true
    /\ PrimFloat.leb (PageTypeResult.confidence r) 1%float = true
    /\ PageTypeResult.isDynamic r = ge (PageTypeResult.confidence r) 0.3%float
    /\ PrimFloat.leb 0%float (PageTypeResult.confidence r') = true
    /\ PrimFloat.leb (PageTypeResult.confidence r') 1%float = true
    /\ PageTypeResult.isDynamic r' = gt (PageTypeResult.confidence r') 0.3%float.
Proof.
  intros load html source r s r'.
  assert (Hs : (0 <= s <= 29)%Z) by apply signals_score_range.
  assert (Hs' : (0 <= score (FetchTs.signals load html source) <= 29)%Z)
    by (pose proof (legacy_signals_score_range load html source); lia).
  destruct (confidence_of_score s Hs) as (E & L0 & L1 & G & G' & _ & _).
  destruct (confidence_of_score _ Hs') as (_ & M0 & M1 & _ & _ & K & K').
  subst r r'. unfold WebScraper.detectPageType, FetchTs.detectPageType.
  cbn [PageTypeResult.confidence PageTypeResult.isDynamic].
  fold s. fold (rawConfidence s). fold (roundedConfidence s).
  fold (rawConfidence (score (FetchTs.signals load html source))).
  fold (roundedConfidence (score (FetchTs.signals load html source))).
  repeat split; try assumption; congruence.
Qed.

(** C1, the claim as stated fails on [fetch.ts]: a page whose body holds
    one empty mount point scores 3 there, so its confidence is 0.3 and
    [isDynamic] is false. *)
Lemma legacy_detectPageType_at_threshold :
  let r := FetchTs.detectPageType Samples.load Samples.html
                                  Samples.rootSource in
  PageTypeResult.confidence r = 0.3%float
  /\ PageTypeResult.isDynamic r = false
  /\ PageTypeResult.isDynamic r <> ge (PageTypeResult.confidence r) 0.3%float.
Proof. vm_compute. repeat split; discriminate. Qed.

(** C5 (as amended).  When the body has no child element,
    [detectPageType] of [web-scraper.ts] returns a confidence of at least
    0.3 and [isDynamic] true; when no other signal fires the confidence is
    exactly 0.3, while the copy of [fetch.ts], which gives this signal one
    point, returns 0.1 and [isDynamic] false. *)
Theorem empty_body_is_dynamic :
  forall (load : string -> document) (html : node -> string)
         (source : string),
    bodyChildren (load source) = 0%Z ->
    let r := WebScraper.detectPageType load html source in
    let r' := FetchTs.detectPageType load html source in
    ge (PageTypeResult.confidence r) 0.3%float = true
    /\ PageTypeResult.isDynamic r = true
    /\ (noOtherSignal load html source ->
        PageTypeResult.confidence r = 0.3%float
        /\ PageTypeResult.confidence r' = 0.1%float
        /\ PageTypeResult.isDynamic r' = false).
Proof.
  intros load html source H r r'.
  pose proof (signals_score_range load html source) as Hs.
  pose proof (signals_score load html source) as E. cbv zeta in E.
  pose proof (legacy_signals_score load html source) as E'. cbv zeta in E'.
  rewrite H in E, E'. cbn [Z.eqb orb] in E, E'.
  assert (H3 : (3 <= score (signals load html source))%Z).
  { pose proof (hydrationMatches_length source).
    rewrite E.
    repeat match goal with |- context [if ?c then _ else _] => destruct c end;
      lia. }
  destruct (confidence_of_score _ Hs) as (_ & _ & _ & G & G' & _ & _).
  subst r r'. unfold WebScraper.detectPageType, FetchTs.detectPageType.
  cbn [PageTypeResult.confidence PageTypeResult.isDynamic].
  fold (rawConfidence (score (signals load html source))).
  fold (roundedConfidence (score (signals load html source))).
  fold (rawConfidence (score (FetchTs.signals load html source))).
  fold (roundedConfidence (score (FetchTs.signals load html source))).
  rewrite G, G'.
  split; [apply Z.leb_le; exact H3|].
  split; [apply Z.leb_le; exact H3|].
  intros (N1 & N2 & N3 & N4 & N5 & N6 & N7 & N8 & N9 & N10).
  rewrite N1, N2, N3, N4, N5, N6, N7, N10 in E, E'.
  assert (S3 : (3 <=? scriptCount (load source))%Z = false)
    by (apply Z.leb_gt; exact N8).
  assert (S5 : (50000 <? scriptTotalLength html (load source))%Z = false)
    by (apply Z.ltb_ge; exact N9).
  rewrite S3, S5 in E, E'.
  rewrite Bool.andb_false_r in E, E'. cbn in E, E'.
  rewrite E, E'. vm_compute. repeat split.
Qed.

(** C5, witness: the page [<body></body>]. *)
Lemma empty_body_is_dynamic_sample :
  bodyChildren (Samples.load Samples.emptySource) = 0%Z
  /\ noOtherSignal Samples.load Samples.html Samples.emptySource
  /\ PageTypeResult.isDynamic
       (WebScraper.detectPageType Samples.load Samples.html
                                  Samples.emptySource) = true
  /\ PageTypeResult.confidence
       (WebScraper.detectPageType Samples.load Samples.html
                                  Samples.emptySource) = 0.3%float.
Proof.
  assert (N : noOtherSignal Samples.load Samples.html Samples.emptySource)
    by (vm_compute; repeat split; intros; discriminate).
  pose proof (empty_body_is_dynamic Samples.load Samples.html
                Samples.emptySource eq_refl) as (_ & D & K).
  destruct (K N) as (C & _ & _).
  split; [reflexivity|]. split; [exact N|]. split; [exact D | exact C].
Defined.

(** C5, the claim as stated fails on [fetch.ts]: on [<body></body>] the
    copy there returns 0.1, below the threshold. *)
Lemma legacy_empty_body_not_dynamic :
  let r := FetchTs.detectPageType Samples.load Samples.html
                                  Samples.emptySource in
  PageTypeResult.confidence r = 0.1%float
  /\ ge (PageTypeResult.confidence r) 0.3%float = false
  /\ PageTypeResult.isDynamic r = false.
Proof. vm_compute. repeat split. Qed.

(** C2.  What the code returns when the generator tag names a known
    framework: the name reported is always [Next.js], whichever name
    matched (the conditional groups as [(a || b) ? "Next.js" : ...]). *)
Theorem framework_of_generator_match :
  forall (load : string -> document) (html : node -> string)
         (source name : string),
    frameworkMatch (load source) = Some name ->
    name <> "" ->
    PageTypeResult.framework (WebScraper.detectPageType load html source)
    = Some "Next.js".
Proof.
  intros load html source name H N.
  unfold WebScraper.detectPageType, detectedFramework.
  cbn [PageTypeResult.framework].
  rewrite H.
  destruct (String.eqb name "") eqn:E.
  - apply String.eqb_eq in E. contradiction.
  - reflexivity.
Qed.

(** C2, at a page whose generator tag says [Gatsby 5.13]: the match is
    [Gatsby], the hint names it, and the framework returned is
    [Next.js]. *)
Lemma framework_of_gatsby_page :
  frameworkMatch (Samples.load Samples.gatsbySource) = Some "Gatsby"
  /\ "Gatsby" <> ""
  /\ PageTypeResult.framework
       (WebScraper.detectPageType Samples.load Samples.html
                                  Samples.gatsbySource) = Some "Next.js"
  /\ PageTypeResult.hints
       (WebScraper.detectPageType Samples.load Samples.html
                                  Samples.gatsbySource)
     = [HintFramework "Gatsby"].
Proof.
  assert (M : frameworkMatch (Samples.load Samples.gatsbySource)
              = Some "Gatsby") by (vm_compute; reflexivity).
  assert (N : "Gatsby" <> "") by discriminate.
  split; [exact M|]. split; [exact N|].
  split.
  - exact (framework_of_generator_match Samples.load Samples.html
             Samples.gatsbySource "Gatsby" M N).
  - vm_compute. reflexivity.
Defined.

(** The framework name on every input: [Next.js] when the generator tag
    matched or the Next.js hydration marker is in the text, else [Nuxt]
    when the Nuxt marker is, else [undefined]. *)
Lemma framework_resolution :
  forall (load : string -> document) (html : node -> string)
         (source : string),
    PageTypeResult.framework (WebScraper.detectPageType load html source)
    = if match frameworkMatch (load source) with
         | Some name => negb (String.eqb name "")
         | None => false
         end
         || test (Lit "__NEXT_DATA__") source
      then Some "Next.js"
      else if test (Lit "__NUXT__") source then Some "Nuxt" else None.
Proof.
  intros load html source.
  unfold WebScraper.detectPageType, detectedFramework, hydrationMatches.
  cbn [PageTypeResult.framework].
  destruct (match frameworkMatch (load source) with
            | Some name => negb (String.eqb name "")
            | None => false
            end); [reflexivity|].
  cbn [orb hydrationPatterns filter].
  destruct (test (Lit "__NEXT_DATA__") source),
           (test (Lit "__NUXT__") source),
           (test (Lit "__INITIAL_STATE__") source),
           (test (Lit "__APOLLO_STATE__") source),
           (test (Lit "__REDUX_STATE__") source),
           (test (Lit "__VUE__") source); vm_compute; reflexivity.
Qed.

End Classifier.

(* ================================================================== *)
(** ** The extractor and the orchestration                             *)
(* ================================================================== *)

Module Extractor.
Import JsString JsNumber Dom Async WebScraper ExtractorSpec.

Lemma fold_pushLink (els : list node) (acc : list Link.t) :
  fold_left pushLink els acc = acc ++ flat_map linkOf els.
Proof.
  revert acc. induction els as [|el els IH]; intros acc; simpl.
  - now rewrite app_nil_r.
  - rewrite IH. unfold pushLink, linkOf.
    destruct (orUndefined (attr [el] "href")); simpl.
    + now rewrite <- app_assoc.
    + reflexivity.
Qed.

Lemma fold_pushImage (els : list node) (acc : list Image.t) :
  fold_left pushImage els acc = acc ++ flat_map imageOf els.
Proof.
  revert acc. induction els as [|el els IH]; intros acc; simpl.
  - now rewrite app_nil_r.
  - rewrite IH. unfold pushImage, imageOf.
    destruct (orUndefined (attr [el] "src")); simpl.
    + now rewrite <- app_assoc.
    + reflexivity.
Qed.

(** The loops of the source collect the links and the images in document
    order, without removing duplicates. *)
Lemma collectLinks_in_order d : collectLinks d = linksInOrder d.
Proof. unfold collectLinks. now rewrite fold_pushLink. Qed.

Lemma collectImages_in_order d : collectImages d = imagesInOrder d.
Proof. unfold collectImages. now rewrite fold_pushImage. Qed.

(** [slice(0, c)] when [c] is the natural number [n]. *)
Lemma slice0_nat {A : Type} (l : list A) (c : number) (n : nat) :
  ToIntegerOrInfinity c = Finite (Z.of_nat n) ->
  slice0 l c = firstn n l.
Proof.
  intros H. unfold slice0. rewrite H.
  destruct (Z.of_nat n <? 0)%Z eqn:E; [apply Z.ltb_lt in E; lia|].
  destruct (Nat.le_gt_cases n (List.length l)) as [L|L].
  - rewrite Z.min_l by lia. now rewrite Nat2Z.id.
  - rewrite Z.min_r by lia. rewrite Nat2Z.id.
    rewrite !firstn_all2; [reflexivity | lia | lia].
Qed.

Lemma slice0_ten {A : Type} (l : list A) : slice0 l 10%float = firstn 10 l.
Proof. apply (slice0_nat l 10%float 10). vm_compute. reflexivity. Qed.


Lemma capped_default {A : Type} (l : list A) : capped None l = firstn 10 l.
Proof. apply slice0_ten. Qed.



Section Operations.

Variable load : string -> document.
Variable html : node -> string.



(** C7.  [fetchPageSummary] and [fetchPageMetadata] make one static
    request and never ask the browser for a rendering, on every URL, with
    every option and whatever the network answers; what they return is
    extracted from the static response. *)
Theorem summary_and_metadata_never_render :
  forall (w : world) (url : string) (linkCount imageCount : option number),
    fst (run w (fetchPageSummary load url linkCount imageCount))
    = [StaticFetch url]
    /\ existsb isRender
         (fst (run w (fetchPageSummary load url linkCount imageCount)))
       = false
    /\ snd (run w (fetchPageSummary load url linkCount imageCount))
       = match http w url with
         | Some source =>
             Fulfilled (summarize load url source linkCount imageCount)
         | None => Rejected (StaticFetch url)
         end
    /\ fst (run w (fetchPageMetadata load url)) = [StaticFetch url]
    /\ existsb isRender (fst (run w (fetchPageMetadata load url))) = false
    /\ snd (run w (fetchPageMetadata load url))
       = match http w url with
         | Some source => Fulfilled (metadataOf load source)
         | None => Rejected (StaticFetch url)
         end.
Proof.
  intros w url linkCount imageCount.
  unfold fetchPageSummary, fetchPageMetadata, fetch_text. cbn.
  destruct (http w url); cbn; repeat split.
Qed.

(** C6.  [fetchLinks] and [fetchPageText] render exactly when
    [forceHeadless] says so, or, when the caller gave none, when the
    classifier finds the static page dynamic; they extract from the
    rendered page in that case and from the static page otherwise. *)
Theorem render_decision :
  forall (w : world) (url : string) (forceHeadless : option bool),
    let decision (source : string) : bool :=
      match forceHeadless with
      | Some b => b
      | None => PageTypeResult.isDynamic (detectPageType load html source)
      end in
    run w (fetchLinks load html url forceHeadless)
    = match http w url with
      | None => ([StaticFetch url], Rejected (StaticFetch url))
      | Some source =>
          if decision source then
            match rendered w url with
            | Some final =>
                ([StaticFetch url; BrowserRender url],
                 Fulfilled (collectLinks (load final)))
            | None =>
                ([StaticFetch url; BrowserRender url],
                 Rejected (BrowserRender url))
            end
          else ([StaticFetch url], Fulfilled (collectLinks (load source)))
      end
    /\ run w (fetchPageText load html url forceHeadless)
       = match http w url with
         | None => ([StaticFetch url], Rejected (StaticFetch url))
         | Some source =>
             if decision source then
               match rendered w url with
               | Some final =>
                   ([StaticFetch url; BrowserRender url],
                    Fulfilled (normalizeText
                                 (text (select (load final) (ByTag "body")))))
               | None =>
                   ([StaticFetch url; BrowserRender url],
                    Rejected (BrowserRender url))
               end
             else ([StaticFetch url],
                   Fulfilled (normalizeText
                                (text (select (load source) (ByTag "body")))))
         end.
Proof.
  intros w url forceHeadless decision.
  unfold fetchLinks, fetchPageText, fetch_text, getRenderedHtml. cbn.
  destruct (http w url) as [source|]; [|split; reflexivity].
  assert (D : useHeadless forceHeadless (detectPageType load html source)
              = decision source) by (destruct forceHeadless; reflexivity).
  rewrite D.
  destruct (decision source); cbn.
  - destruct (rendered w url); cbn; split; reflexivity.
  - split; reflexivity.
Qed.

End Operations.



(** C8.  In the result of [fetchPageMetadata], an optional field whose
    source tag is missing from the page is absent, and no optional field
    is ever the empty string. *)
Theorem metadata_absent_when_tag_missing :
  forall (load : string -> document) (w : world) (url source : string),
    http w url = Some source ->
    snd (run w (fetchPageMetadata load url))
    = Fulfilled (metadataOf load source)
    /\ (forall f : field,
           select (load source) (sourceTag f) = [] ->
           get f (metadataOf load source) = None)
    /\ (forall f : field, get f (metadataOf load source) <> Some "").
Proof.
  intros load w url source H.
  split; [|split].
  - unfold fetchPageMetadata, fetch_text. cbn. now rewrite H.
  - intros f E.
    destruct f; cbn in E |- *;
      unfold getMetaByName, getMetaByProperty, getLinkByRel;
      rewrite E; reflexivity.
  - assert (U : forall a, orUndefined a <> Some "").
    { intros [v|]; cbn; [|discriminate].
      destruct (String.eqb v "") eqn:E; [discriminate|].
      intros K. injection K as K. subst v. discriminate. }
    assert (V : forall a b, orElseUndefined a b <> Some "").
    { intros a b. unfold orElseUndefined.
      destruct (orUndefined a) eqn:E; [rewrite <- E|]; apply U. }
    intros f. destruct f; cbn; first [apply U | apply V].
Qed.

(** C8, witness: a page with [og:title] set to [T] and no description
    tag gives [og_title] equal to [T] and no [description]. *)
Lemma metadata_of_og_page :
  http (serving "http://x/" Samples.ogSource) "http://x/"
  = Some Samples.ogSource
  /\ select (Samples.load Samples.ogSource) (sourceTag Description) = []
  /\ PageMetadata.description (metadataOf Samples.load Samples.ogSource)
     = None
  /\ PageMetadata.og_title (metadataOf Samples.load Samples.ogSource)
     = Some "T"
  /\ snd (run (serving "http://x/" Samples.ogSource)
              (fetchPageMetadata Samples.load "http://x/"))
     = Fulfilled (metadataOf Samples.load Samples.ogSource).
Proof.
  assert (H : http (serving "http://x/" Samples.ogSource) "http://x/"
              = Some Samples.ogSource) by reflexivity.
  assert (S : select (Samples.load Samples.ogSource) (sourceTag Description)
              = []) by reflexivity.
  destruct (metadata_absent_when_tag_missing Samples.load
              (serving "http://x/" Samples.ogSource) "http://x/"
              Samples.ogSource H) as (R & A & _).
  split; [exact H|]. split; [exact S|].
  split; [exact (A Description S)|].
  split; [reflexivity | exact R].
Defined.

(** C3.  On the body text [Hello], backslash, [nWorld], three blank
    lines, [End], the pipeline of [fetchPageText] returns
    [Hello], [World] and [End] on three consecutive lines: the
    replacement of blanks around a line feed also takes the neighbouring
    line feeds, so no blank line is left for the next step to keep.  The
    text with the backslash doubled gives the same. *)
Theorem normalizeText_hello :
  normalizeText Samples.helloText = Samples.helloNormalized
  /\ normalizeText Samples.helloText2 = Samples.helloNormalized
  /\ normalizeText Samples.helloText <> Samples.helloExpected
  /\ run (serving "http://x/" Samples.helloSource)
         (fetchPageText Samples.load Samples.html "http://x/" (Some false))
     = ([StaticFetch "http://x/"], Fulfilled Samples.helloNormalized).
Proof.
  vm_compute. repeat split; discriminate.
Qed.

End Extractor.

(* ================================================================== *)
(** ** The browser session                                             *)
(* ================================================================== *)

Module Session.
Import Browser SessionSpec.

Lemma set_nth_Forall {A : Type} (P : A -> Prop) i x l :
  Forall P l -> P x -> Forall P (set_nth i x l).
Proof.
  intros H Hx. revert i. induction H as [|y l Hy Hl IH]; intros i.
  - destruct i; constructor.
  - destruct i; simpl; constructor; auto.
Qed.

Lemma set_nth_count {A : Type} (f : A -> bool) i x y l :
  nth_error l i = Some y ->
  (List.length (filter f (set_nth i x l)) + (if f y then 1 else 0)
   = List.length (filter f l) + (if f x then 1 else 0))%nat.
Proof.
  revert i. induction l as [|z l IH]; intros i H.
  - destruct i; discriminate.
  - destruct i as [|i]; simpl in *.
    + injection H as ->. destruct (f x), (f y); simpl; lia.
    + specialize (IH i H). destruct (f z); simpl; lia.
Qed.

Lemma nth_error_Forall {A : Type} (P : A -> Prop) l i x :
  Forall P l -> nth_error l i = Some x -> P x.
Proof.
  intros H E. rewrite Forall_forall in H. apply H.
  eapply nth_error_In; eauto.
Qed.

Lemma resume_unassigned stealth body i st :
  unassigned st -> unassigned (resume stealth body i st).
Proof.
  intros J. unfold resume.
  destruct (nth_error (calls st) i) as [p|] eqn:E; [|exact J].
  destruct p.
  - (* Called *)
    destruct (noSession st) eqn:N.
    + unfold unassigned; simpl. intros B. destruct (J B) as (F & L).
      split.
      * apply set_nth_Forall; [exact F | right; reflexivity].
      * pose proof (set_nth_count created i
                      (AwaitLaunch {| pid := List.length (launches st);
                                      connected := true |})
                      Called (calls st) E) as C.
        simpl in C. rewrite length_app. simpl. lia.
    + destruct (browser st) eqn:B; [|exact J].
      unfold unassigned; simpl. rewrite B. discriminate.
  - (* AwaitLaunch *)
    unfold unassigned; simpl. intros B. destruct (J B) as (F & L). split.
    + apply set_nth_Forall; [exact F | right; reflexivity].
    + pose proof (set_nth_count created i (AwaitPageSetup b) _ _ E) as C.
      simpl in C. lia.
  - (* AwaitPageSetup *)
    destruct stealth; [destruct (stealthScript st)|];
      unfold unassigned; simpl; intros B; destruct (J B) as (F & L); split;
      try (apply set_nth_Forall; [exact F | right; reflexivity]).
    + pose proof (set_nth_count created i (AwaitInjection b) _ _ E) as C.
      simpl in C. lia.
    + pose proof (set_nth_count created i (AwaitStealthFetch b) _ _ E) as C.
      simpl in C. lia.
    + pose proof (set_nth_count created i (AwaitInjection b) _ _ E) as C.
      simpl in C. lia.
  - (* AwaitStealthFetch *)
    unfold unassigned; simpl. intros B. destruct (J B) as (F & L). split.
    + apply set_nth_Forall; [exact F | right; reflexivity].
    + pose proof (set_nth_count created i (AwaitInjection b) _ _ E) as C.
      simpl in C. lia.
  - (* AwaitInjection: the assignment *)
    unfold unassigned; simpl. discriminate.
  - (* AwaitNewPage *)
    unfold unassigned; simpl. intros B. destruct (J B) as (F & L).
    destruct (nth_error_Forall _ _ _ _ F E) as [K|K]; discriminate.
  - exact J.
Qed.

Lemma exec_unassigned stealth body schedule st :
  unassigned st -> unassigned (exec stealth body schedule st).
Proof.
  revert st. induction schedule as [|i schedule IH]; intros st J.
  - exact J.
  - simpl. apply IH. now apply resume_unassigned.
Qed.

(** Once every call has begun, no further process is started. *)
Lemma resume_all_started stealth body i st :
  Forall (fun p => started p = true) (calls st) ->
  Forall (fun p => started p = true) (calls (resume stealth body i st))
  /\ launches (resume stealth body i st) = launches st.
Proof.
  intros F. unfold resume.
  destruct (nth_error (calls st) i) as [p|] eqn:E; [|now split].
  pose proof (nth_error_Forall _ _ _ _ F E) as S.
  destruct p; try discriminate; simpl;
    try (split; [apply set_nth_Forall; [exact F | reflexivity]
                | reflexivity]).
  - destruct stealth; [destruct (stealthScript st)|]; simpl;
      (split; [apply set_nth_Forall; [exact F | reflexivity] | reflexivity]).
  - now split.
Qed.

Lemma exec_all_started stealth body schedule st :
  Forall (fun p => started p = true) (calls st) ->
  launches (exec stealth body schedule st) = launches st.
Proof.
  revert st. induction schedule as [|i schedule IH]; intros st F.
  - reflexivity.
  - simpl. destruct (resume_all_started stealth body i st F) as (F' & L).
    rewrite IH by exact F'. exact L.
Qed.

Lemma initial_unassigned n : unassigned (initial n).
Proof.
  intros _. simpl. split.
  - apply Forall_forall. intros p H. apply repeat_spec in H. now left.
  - induction n; simpl; auto.
Qed.

Lemma exec_length stealth body schedule st :
  List.length (calls (exec stealth body schedule st)) = List.length (calls st).
Proof.
  revert st. induction schedule as [|i schedule IH]; intros st.
  - reflexivity.
  - simpl. rewrite IH. unfold resume.
    assert (G : forall p s, List.length (calls (goto i p s))
                            = List.length (calls s)).
    { intros p s. simpl. generalize (calls s) as l. generalize i as j.
      induction j; destruct l; simpl; auto. }
    destruct (nth_error (calls st) i) as [p|]; [|reflexivity].
    destruct p; try reflexivity; try (now rewrite G).
    + destruct (noSession st); [now rewrite G|].
      destruct (browser st); [now rewrite G | reflexivity].
    + destruct stealth; [destruct (stealthScript st)|]; now rewrite G.
Qed.

(** X12.  [n] calls of [getBrowser] that have all begun before any of them has
    assigned [browser] start [n] browser processes, whatever the order in
    which they resume afterwards. *)
Lemma concurrent_calls_launch_each stealth body n before after :
  let st := exec stealth body before (initial n) in
  browser st = None ->
  Forall (fun p => started p = true) (calls st) ->
  List.length (launches (exec stealth body after st)) = n.
Proof.
  intros st B F.
  rewrite exec_all_started by exact F.
  destruct (exec_unassigned stealth body before (initial n)
              (initial_unassigned n) B) as (C & L).
  fold st in C, L. rewrite L.
  assert (E : filter created (calls st) = calls st).
  { clear L. induction (calls st) as [|p l IH]; [reflexivity|].
    inversion C as [|? ? [K|K] C']; inversion F as [|? ? S F']; subst.
    - discriminate.
    - simpl. rewrite K. f_equal. now apply IH. }
  rewrite E. unfold st. rewrite exec_length. simpl. apply repeat_length.
Qed.

(** C9.  Two calls of [getBrowser] made while there is no session, the
    second before the first has finished: each finds [browser] null and
    goes through [createBrowser], so two processes are launched, the
    stealth script is requested twice, the two calls return different
    browsers and [browser] keeps the one assigned last.  Made one after
    the other, the same two calls launch one process. *)
Theorem two_concurrent_calls_launch_twice :
  let concurrent := exec true "stealth" [0; 1; 0; 1; 0; 1; 0; 1; 0; 1]%nat
                         (initial 2) in
  let sequential := exec true "stealth" [0; 0; 0; 0; 0; 1; 1]%nat
                         (initial 2) in
  launches concurrent = [0; 1]%nat
  /\ stealthFetches concurrent = 2%nat
  /\ calls concurrent
     = [Returned {| pid := 0; connected := true |};
        Returned {| pid := 1; connected := true |}]
  /\ browser concurrent = Some {| pid := 1; connected := true |}
  /\ launches (exec true "stealth" [0; 1]%nat (initial 2)) = [0; 1]%nat
  /\ launches sequential = [0]%nat
  /\ calls sequential
     = [Returned {| pid := 0; connected := true |};
        Returned {| pid := 0; connected := true |}].
Proof. vm_compute. repeat split. Qed.

End Session.

(* ================================================================== *)
(** ** The text pipeline on every input                                *)
(* ================================================================== *)

Module Normalization.
Import JsString Dom WebScraper TextSpec.

Lemma LF_is_space c : is_char LF c = true -> is_space c = true.
Proof.
  unfold is_char. intros H. apply Ascii.eqb_eq in H. subst c. reflexivity.
Qed.

Lemma spaceOrTab_not_LF c : spaceOrTab c = true -> is_char LF c = false.
Proof.
  unfold spaceOrTab, is_char. intros H.
  apply Bool.orb_true_iff in H as [H|H]; apply Ascii.eqb_eq in H; subst c;
    reflexivity.
Qed.

Lemma skipn_takeWhile p l :
  skipn (List.length (takeWhile p l)) l = dropWhile p l.
Proof.
  induction l as [|c l IH]; simpl; [reflexivity|].
  destruct (p c); simpl; [exact IH | reflexivity].
Qed.

Lemma takeWhile_length p l :
  (List.length (takeWhile p l) <= List.length l)%nat.
Proof.
  induction l as [|c l IH]; simpl; [lia|]. destruct (p c); simpl; lia.
Qed.

Lemma dropWhile_length p l :
  (List.length (dropWhile p l) <= List.length l)%nat.
Proof.
  induction l as [|c l IH]; simpl; [lia|]. destruct (p c); simpl; lia.
Qed.

Lemma dropWhile_head p l :
  match dropWhile p l with c :: _ => p c = false | [] => True end.
Proof.
  induction l as [|c l IH]; simpl; [exact I|].
  destruct (p c) eqn:E; [exact IH | exact E].
Qed.

(** A match that is dropped character by character is the same as a
    jump over it. *)
Lemma replaceFrom_skip r rep l k :
  (k <= List.length l)%nat ->
  replaceFrom r rep l k = replaceFrom r rep (skipn k l) 0.
Proof.
  revert k. induction l as [|c l IH]; intros k H.
  - simpl in H. assert (k = 0)%nat by lia. subst k. reflexivity.
  - destruct k as [|k]; [reflexivity|].
    simpl in H. cbn [replaceFrom skipn]. apply IH. lia.
Qed.

(** The greedy star followed by nothing takes the longest run. *)
Lemma star_longest p l n :
  star p l n (fun _ m => Some m) = Some (n + List.length (takeWhile p l))%nat.
Proof.
  revert n. induction l as [|c l IH]; intros n; simpl.
  - f_equal. lia.
  - destruct (p c); simpl.
    + rewrite IH. f_equal. lia.
    + f_equal. lia.
Qed.

(** Blanks, a line feed, blanks: the match is the longest run of blanks
    at that place, when a line feed is in it. *)
Lemma exec_blanksAroundLF l :
  exec blanksAroundLF l =
  if existsb (is_char LF) (takeWhile is_space l)
  then Some (List.length (takeWhile is_space l))
  else None.
Proof.
  unfold exec, blanksAroundLF, Chr. cbn [matchAt].
  assert (G : forall n,
             star is_space l n
               (fun s' n' =>
                  match s' with
                  | c :: s'' =>
                      if is_char LF c
                      then star is_space s'' (S n') (fun _ m => Some m)
                      else None
                  | [] => None
                  end)
             = if existsb (is_char LF) (takeWhile is_space l)
               then Some (n + List.length (takeWhile is_space l))%nat
               else None).
  { induction l as [|c l IH]; intros n; [reflexivity|].
    cbn [star takeWhile].
    destruct (is_space c) eqn:S.
    - rewrite IH. cbn [existsb List.length].
      destruct (existsb (is_char LF) (takeWhile is_space l)).
      + rewrite Bool.orb_true_r. f_equal. lia.
      + rewrite Bool.orb_false_r.
        destruct (is_char LF c); [|reflexivity].
        rewrite star_longest. f_equal. lia.
    - cbn [existsb].
      destruct (is_char LF c) eqn:L; [|reflexivity].
      apply LF_is_space in L. congruence. }
  rewrite G. reflexivity.
Qed.

Lemma replaceFrom_unfold r rep l :
  replaceFrom r rep l 0 =
  match exec r l with
  | Some (S j) =>
      rep ++ match l with
             | _ :: l' => replaceFrom r rep l' j
             | [] => []
             end
  | Some O =>
      rep ++ match l with
             | c :: l' => c :: replaceFrom r rep l' 0
             | [] => []
             end
  | None =>
      match l with
      | c :: l' => c :: replaceFrom r rep l' 0
      | [] => []
      end
  end.
Proof. destruct l; reflexivity. Qed.

Lemma single_weaken prev l : single true l = true -> single prev l = true.
Proof.
  destruct l as [|c l]; [reflexivity|]. cbn [single app negb andb].
  destruct (is_char LF c); [discriminate | auto].
Qed.

(** After the blanks around line feeds are replaced, no line feed follows
    another. *)
Lemma single_after_blanksAroundLF n :
  forall l prev,
    (List.length l <= n)%nat ->
    (prev = true ->
     match l with c :: _ => is_space c = false | [] => True end) ->
    single prev (replaceFrom blanksAroundLF [LF] l 0) = true.
Proof.
  induction n as [|n IH]; intros l prev Hn Hp.
  - destruct l; [reflexivity | simpl in Hn; lia].
  - destruct l as [|c l]; [reflexivity|].
    rewrite replaceFrom_unfold, exec_blanksAroundLF.
    simpl in Hn. cbn [takeWhile].
    destruct (is_space c) eqn:S.
    + cbn [existsb List.length].
      destruct (is_char LF c || existsb (is_char LF) (takeWhile is_space l))
               eqn:E.
      * rewrite replaceFrom_skip by apply takeWhile_length.
        rewrite skipn_takeWhile.
        assert (prev = false) as ->.
        { destruct prev; [|reflexivity]. specialize (Hp eq_refl). congruence. }
        cbn [single app negb andb]. apply IH.
        -- pose proof (dropWhile_length is_space l). lia.
        -- intros _. apply dropWhile_head.
      * apply Bool.orb_false_iff in E as [E _].
        cbn [single app negb andb]. rewrite E. apply IH; [lia | discriminate].
    + cbn [existsb].
      assert (E : is_char LF c = false).
      { destruct (is_char LF c) eqn:E; [|reflexivity].
        apply LF_is_space in E. congruence. }
      cbn [single app negb andb]. rewrite E. apply IH; [lia | discriminate].
Qed.

(** Without two line feeds in a row, the pattern of three or more has no
    match: that step changes nothing. *)
Lemma exec_threeOrMoreLF prev l :
  single prev l = true -> exec threeOrMoreLF l = None.
Proof.
  intros H. unfold exec, threeOrMoreLF, Chr. cbn [matchAt].
  destruct l as [|c1 [|c2 l]]; [reflexivity| |].
  - destruct (is_char LF c1); reflexivity.
  - cbn [single app negb andb] in H |- *.
    destruct (is_char LF c1); [|reflexivity].
    destruct (is_char LF c2); [|reflexivity].
    rewrite Bool.andb_false_r in H. discriminate.
Qed.

Lemma threeOrMoreLF_unchanged rep l :
  forall prev, single prev l = true ->
               replaceFrom threeOrMoreLF rep l 0 = l.
Proof.
  induction l as [|c l IH]; intros prev H.
  - reflexivity.
  - rewrite replaceFrom_unfold, (exec_threeOrMoreLF prev) by exact H.
    f_equal. cbn [single app negb andb] in H.
    destruct (is_char LF c).
    + apply Bool.andb_true_iff in H as [_ H]. now apply (IH true).
    + now apply (IH false).
Qed.

Lemma exec_spaceOrTab l :
  exec (Plus spaceOrTab) l =
  match l with
  | c :: l' =>
      if spaceOrTab c
      then Some (S (List.length (takeWhile spaceOrTab l')))
      else None
  | [] => None
  end.
Proof.
  unfold exec, Plus. cbn [matchAt].
  destruct l as [|c l]; [reflexivity|].
  destruct (spaceOrTab c); [|reflexivity].
  now rewrite star_longest.
Qed.

Lemma single_dropWhile l :
  single false l = true -> single false (dropWhile spaceOrTab l) = true.
Proof.
  induction l as [|c l IH]; intros H; [reflexivity|].
  cbn [dropWhile]. destruct (spaceOrTab c) eqn:E; [|exact H].
  apply IH. cbn [single app negb andb] in H. now rewrite (spaceOrTab_not_LF c E) in H.
Qed.

(** Replacing a run of spaces and tabs by one space brings no two line
    feeds together. *)
Lemma single_after_spaces n :
  forall l prev,
    (List.length l <= n)%nat ->
    single prev l = true ->
    single prev (replaceFrom (Plus spaceOrTab) [" "%char] l 0) = true.
Proof.
  induction n as [|n IH]; intros l prev Hn H.
  - destruct l; [reflexivity | simpl in Hn; lia].
  - destruct l as [|c l]; [reflexivity|].
    rewrite replaceFrom_unfold, exec_spaceOrTab. simpl in Hn.
    destruct (spaceOrTab c) eqn:E.
    + rewrite replaceFrom_skip by apply takeWhile_length.
      rewrite skipn_takeWhile.
      cbn [single app negb andb] in H |- *. rewrite (spaceOrTab_not_LF c E) in H.
      apply IH.
      * pose proof (dropWhile_length spaceOrTab l). lia.
      * now apply single_dropWhile.
    + cbn [single app negb andb] in H |- *. destruct (is_char LF c).
      * apply Bool.andb_true_iff in H as [P H]. rewrite P. cbn [single app negb andb].
        apply IH; [lia | exact H].
      * apply IH; [lia | exact H].
Qed.

Lemma single_prefix a b prev :
  single prev (a ++ b) = true -> single prev a = true.
Proof.
  revert prev. induction a as [|c a IH]; intros prev H; [reflexivity|].
  cbn [single app negb andb] in H |- *. destruct (is_char LF c).
  - apply Bool.andb_true_iff in H as [P H]. rewrite P. cbn [single app negb andb]. now apply IH.
  - now apply IH.
Qed.

Lemma single_suffix a b prev :
  single prev (a ++ b) = true -> single false b = true.
Proof.
  revert prev. induction a as [|c a IH]; intros prev H.
  - destruct prev; [now apply single_weaken | exact H].
  - cbn [single app negb andb] in H. destruct (is_char LF c).
    + apply Bool.andb_true_iff in H as [_ H]. now apply (IH true).
    + now apply (IH false).
Qed.

Lemma trimStart_suffix l : exists a, l = a ++ trimStart l.
Proof.
  induction l as [|c l [a IH]]; [now exists []|].
  cbn [trimStart]. destruct (is_space c).
  - exists (c :: a). cbn [app]. now f_equal.
  - now exists [].
Qed.

Lemma trimEnd_prefix l : exists b, l = trimEnd l ++ b.
Proof.
  unfold trimEnd. destruct (trimStart_suffix (rev l)) as [a E].
  exists (rev a). rewrite <- rev_app_distr, <- E. now rewrite rev_involutive.
Qed.

Lemma single_trim l :
  single false l = true -> single false (trimEnd (trimStart l)) = true.
Proof.
  intros H.
  destruct (trimStart_suffix l) as [a Ea].
  destruct (trimEnd_prefix (trimStart l)) as [b Eb].
  rewrite Ea in H. apply single_suffix in H.
  rewrite Eb in H. now apply single_prefix in H.
Qed.

Lemma single_excludes prev a b : single prev (a ++ LF :: LF :: b) = false.
Proof.
  revert prev. induction a as [|c a IH]; intros prev.
  - cbn [single app negb andb]. apply Bool.andb_false_r.
  - cbn [single app negb andb]. destruct (is_char LF c); [|apply IH].
    rewrite IH. apply Bool.andb_false_r.
Qed.

(** C3, second half, on every input: the text [fetchPageText] returns
    never has two line feeds in a row, so it has no blank line at all. *)
Theorem normalizeText_no_blank_line :
  forall (text : string) (a b : list ascii),
    chars (normalizeText text) <> a ++ LF :: LF :: b.
Proof.
  intros text a b E.
  assert (S : single false (chars (normalizeText text)) = true).
  { unfold normalizeText, trim, replaceAll, chars, str.
    rewrite !list_ascii_of_string_of_list_ascii.
    apply single_trim.
    apply (single_after_spaces _ _ _ (le_n _)).
    assert (B : forall l,
               single false (replaceFrom blanksAroundLF [LF] l 0) = true)
      by (intros l; apply (single_after_blanksAroundLF _ _ _ (le_n _));
          discriminate).
    fold blanksAroundLF. fold threeOrMoreLF.
    rewrite (threeOrMoreLF_unchanged _ _ false) by apply B.
    apply B. }
  rewrite E, single_excludes in S. discriminate.
Qed.

(** *** Every line of the result is tidy *)

Lemma spaceOrTab_is_space c : spaceOrTab c = true -> is_space c = true.
Proof.
  unfold spaceOrTab, is_char. intros H.
  apply Bool.orb_true_iff in H as [H|H]; apply Ascii.eqb_eq in H; subst c;
    reflexivity.
Qed.

Lemma not_space_not_LF c : is_space c = false -> is_char LF c = false.
Proof.
  intros H. destruct (is_char LF c) eqn:E; [|reflexivity].
  apply LF_is_space in E. congruence.
Qed.

Lemma firstIsBlank_dropWhile l : firstIsBlank (dropWhile is_space l) = false.
Proof.
  pose proof (dropWhile_head is_space l) as H.
  destruct (dropWhile is_space l); [reflexivity | exact H].
Qed.

Lemma firstIsBlank_trimStart l : firstIsBlank (trimStart l) = false.
Proof.
  induction l as [|c l IH]; [reflexivity|].
  cbn [trimStart]. destruct (is_space c) eqn:E; [exact IH | exact E].
Qed.

(** What [normalizeText] returns, with the step that changes nothing
    left out: the two replacements that matter and the trim, applied to
    the text [x] the first five replacements leave. *)
Lemma normalizeText_chars text :
  exists x : list ascii,
    chars (normalizeText text)
    = trimEnd (trimStart
        (replaceFrom (Plus spaceOrTab) [" "%char]
           (replaceFrom blanksAroundLF [LF] x 0) 0)).
Proof.
  unfold normalizeText, trim, replaceAll, chars, str.
  rewrite !list_ascii_of_string_of_list_ascii.
  eexists.
  fold blanksAroundLF. fold threeOrMoreLF.
  rewrite (threeOrMoreLF_unchanged _ _ false).
  - reflexivity.
  - apply (single_after_blanksAroundLF _ _ _ (le_n _)). discriminate.
Qed.

Lemma pairwise_after_blanksAroundLF n :
  forall l p,
    (List.length l <= n)%nat ->
    (is_char LF p = true -> firstIsBlank l = false) ->
    (is_space p = true -> is_char LF p = false ->
     existsb (is_char LF) (takeWhile is_space l) = false) ->
    pairwise lfApart p (replaceFrom blanksAroundLF [LF] l 0) = true.
Proof.
  induction n as [|n IH]; intros l p Hn H1 H2.
  - destruct l; [reflexivity | simpl in Hn; lia].
  - destruct l as [|c l]; [reflexivity|].
    rewrite replaceFrom_unfold, exec_blanksAroundLF.
    simpl in Hn. cbn [takeWhile].
    destruct (is_space c) eqn:S.
    + cbn [existsb List.length].
      destruct (is_char LF c || existsb (is_char LF) (takeWhile is_space l))
               eqn:E.
      * (* the run of blanks from [c] on holds a line feed *)
        assert (Lp : is_char LF p = false).
        { destruct (is_char LF p) eqn:L; [|reflexivity].
          specialize (H1 eq_refl). cbn [firstIsBlank] in H1. congruence. }
        assert (Sp : is_space p = false).
        { destruct (is_space p) eqn:K; [|reflexivity].
          specialize (H2 eq_refl Lp). cbn [takeWhile] in H2.
          rewrite S in H2. cbn [existsb] in H2. congruence. }
        rewrite replaceFrom_skip by apply takeWhile_length.
        rewrite skipn_takeWhile.
        cbn [app pairwise]. apply Bool.andb_true_iff. split.
        -- unfold lfApart. rewrite Lp, Sp. reflexivity.
        -- apply IH.
           ++ pose proof (dropWhile_length is_space l). lia.
           ++ intros _. apply firstIsBlank_dropWhile.
           ++ intros _ K. discriminate K.
      * apply Bool.orb_false_iff in E as [Lc E].
        cbn [pairwise]. apply Bool.andb_true_iff. split.
        -- unfold lfApart. rewrite Lc, Bool.andb_false_r.
           destruct (is_char LF p) eqn:L; [|reflexivity].
           specialize (H1 eq_refl). cbn [firstIsBlank] in H1. congruence.
        -- apply IH; [lia | congruence | intros _ _; exact E].
    + cbn [existsb].
      pose proof (not_space_not_LF c S) as Lc.
      cbn [pairwise]. apply Bool.andb_true_iff. split.
      * unfold lfApart. rewrite Lc, S, !Bool.andb_false_r. reflexivity.
      * apply IH; [lia | congruence | congruence].
Qed.

Lemma lfApart_blank_r p c :
  spaceOrTab c = true -> lfApart p c = lfApart p " "%char.
Proof.
  intros H. unfold lfApart.
  rewrite (spaceOrTab_is_space c H), (spaceOrTab_not_LF c H). reflexivity.
Qed.

Lemma lfApart_blank_l a c :
  spaceOrTab a = true -> lfApart a c = lfApart " "%char c.
Proof.
  intros H. unfold lfApart.
  rewrite (spaceOrTab_is_space a H), (spaceOrTab_not_LF a H). reflexivity.
Qed.

Lemma pairwise_dropWhile l :
  forall c,
    spaceOrTab c = true ->
    pairwise lfApart c l = true ->
    pairwise lfApart " "%char (dropWhile spaceOrTab l) = true.
Proof.
  induction l as [|d l IH]; intros c Hc H; [reflexivity|].
  cbn [pairwise] in H. apply Bool.andb_true_iff in H as [R H].
  cbn [dropWhile]. destruct (spaceOrTab d) eqn:E.
  - now apply (IH d).
  - cbn [pairwise]. rewrite <- (lfApart_blank_l c d Hc), R. exact H.
Qed.

Lemma pairwise_after_spaces n :
  forall l p,
    (List.length l <= n)%nat ->
    pairwise lfApart p l = true ->
    (spaceOrTab p = true ->
     match l with c :: _ => spaceOrTab c = false | [] => True end) ->
    pairwise lfApart p (replaceFrom (Plus spaceOrTab) [" "%char] l 0) = true
    /\ pairwise notTwoSpaces p
         (replaceFrom (Plus spaceOrTab) [" "%char] l 0) = true
    /\ forallb (fun c => negb (is_char TAB c))
         (replaceFrom (Plus spaceOrTab) [" "%char] l 0) = true.
Proof.
  induction n as [|n IH]; intros l p Hn H H2.
  - destruct l; [repeat split | simpl in Hn; lia].
  - destruct l as [|c l]; [repeat split|].
    rewrite replaceFrom_unfold, exec_spaceOrTab. simpl in Hn.
    cbn [pairwise] in H. apply Bool.andb_true_iff in H as [R H].
    destruct (spaceOrTab c) eqn:E.
    + rewrite replaceFrom_skip by apply takeWhile_length.
      rewrite skipn_takeWhile.
      assert (Sp : spaceOrTab p = false).
      { destruct (spaceOrTab p) eqn:K; [|reflexivity].
        specialize (H2 eq_refl). congruence. }
      destruct (IH (dropWhile spaceOrTab l) " "%char) as (A & B & C).
      * pose proof (dropWhile_length spaceOrTab l). lia.
      * now apply (pairwise_dropWhile l c).
      * intros _. apply (dropWhile_head spaceOrTab l).
      * cbn [app pairwise forallb].
        rewrite <- (lfApart_blank_r p c E), R, A, B, C.
        repeat split.
        unfold notTwoSpaces. unfold spaceOrTab in Sp.
        apply Bool.orb_false_iff in Sp as [Sp _]. rewrite Sp. reflexivity.
    + destruct (IH l c) as (A & B & C); [lia | exact H | congruence |].
      cbn [pairwise forallb]. rewrite R, A, B, C.
      unfold spaceOrTab in E. apply Bool.orb_false_iff in E as [E1 E2].
      unfold notTwoSpaces. rewrite E1, E2, Bool.andb_false_r.
      repeat split.
Qed.

Lemma pairwise_app R a b p :
  pairwise R p (a ++ b) = true -> pairwise R p a = true /\ chain R b = true.
Proof.
  revert p. induction a as [|c a IH]; intros p H.
  - split; [reflexivity|]. destruct b as [|d b]; [reflexivity|].
    cbn [app pairwise] in H. apply Bool.andb_true_iff in H as [_ H]. exact H.
  - cbn [app pairwise] in H |- *. apply Bool.andb_true_iff in H as [K H].
    destruct (IH c H) as (A & B). rewrite K, A. now split.
Qed.

Lemma chain_app R a b :
  chain R (a ++ b) = true -> chain R a = true /\ chain R b = true.
Proof.
  destruct a as [|c a]; [now split|].
  cbn [app chain]. apply pairwise_app.
Qed.

Lemma chain_trim R l :
  chain R l = true -> chain R (trimEnd (trimStart l)) = true.
Proof.
  intros H.
  destruct (trimStart_suffix l) as [a Ea].
  destruct (trimEnd_prefix (trimStart l)) as [b Eb].
  rewrite Ea in H. apply chain_app in H as [_ H].
  rewrite Eb in H. now apply chain_app in H as [H _].
Qed.

Lemma forallb_trim (f : ascii -> bool) l :
  forallb f l = true -> forallb f (trimEnd (trimStart l)) = true.
Proof.
  intros H.
  destruct (trimStart_suffix l) as [a Ea].
  destruct (trimEnd_prefix (trimStart l)) as [b Eb].
  rewrite Ea, forallb_app in H. apply Bool.andb_true_iff in H as [_ H].
  rewrite Eb, forallb_app in H. now apply Bool.andb_true_iff in H as [H _].
Qed.

Lemma trim_ends l :
  firstIsBlank (trimEnd (trimStart l)) = false
  /\ firstIsBlank (rev (trimEnd (trimStart l))) = false.
Proof.
  split.
  - destruct (trimEnd_prefix (trimStart l)) as [b Eb].
    pose proof (firstIsBlank_trimStart l) as F. rewrite Eb in F.
    destruct (trimEnd (trimStart l)); [reflexivity | exact F].
  - unfold trimEnd. rewrite rev_involutive. apply firstIsBlank_trimStart.
Qed.

(** X1.  In the text [fetchPageText] returns, whatever the page: no line is
    empty, and no line starts or ends with a blank (the text does not
    start or end with a blank, and no line feed has a blank or another
    line feed beside it). *)
Theorem normalizeText_lines_tidy :
  forall text : string, linesTidy (chars (normalizeText text)) = true.
Proof.
  intros text. destruct (normalizeText_chars text) as [x ->].
  unfold linesTidy.
  destruct (trim_ends (replaceFrom (Plus spaceOrTab) [" "%char]
                         (replaceFrom blanksAroundLF [LF] x 0) 0))
    as (F & L).
  rewrite F, L. cbn [negb andb].
  apply chain_trim.
  assert (A : pairwise lfApart "a"%char
                (replaceFrom blanksAroundLF [LF] x 0) = true)
    by (apply (pairwise_after_blanksAroundLF _ _ _ (le_n _));
        intros; discriminate).
  destruct (pairwise_after_spaces _ _ "a"%char (le_n _) A) as (B & _ & _);
    [intros; discriminate|].
  destruct (replaceFrom (Plus spaceOrTab) [" "%char]
              (replaceFrom blanksAroundLF [LF] x 0) 0); [reflexivity|].
  cbn [pairwise] in B. apply Bool.andb_true_iff in B as [_ B]. exact B.
Qed.

(** X2.  In the text [fetchPageText] returns, whatever the page, there is no
    tab and there are no two spaces in a row. *)
Theorem normalizeText_spaces_single :
  forall text : string, spacesSingle (chars (normalizeText text)) = true.
Proof.
  intros text. destruct (normalizeText_chars text) as [x ->].
  unfold spacesSingle.
  assert (A : pairwise lfApart "a"%char
                (replaceFrom blanksAroundLF [LF] x 0) = true)
    by (apply (pairwise_after_blanksAroundLF _ _ _ (le_n _));
        intros; discriminate).
  destruct (pairwise_after_spaces _ _ "a"%char (le_n _) A) as (_ & B & C);
    [intros; discriminate|].
  apply Bool.andb_true_iff. split.
  - now apply forallb_trim.
  - apply chain_trim.
    destruct (replaceFrom (Plus spaceOrTab) [" "%char]
                (replaceFrom blanksAroundLF [LF] x 0) 0); [reflexivity|].
    cbn [pairwise] in B. apply Bool.andb_true_iff in B as [_ B]. exact B.
Qed.

End Normalization.

(* ================================================================== *)
(** ** The matcher                                                     *)
(* ================================================================== *)

Module RegexFacts.
Import JsString TextSpec.

(** A successful match hands to the rest of the pattern a suffix of the
    text and the count of the characters before it. *)
Lemma star_calls p :
  forall s n k m,
    star p s n k = Some m ->
    exists pre s', s = pre ++ s' /\ k s' (n + List.length pre)%nat = Some m.
Proof.
  induction s as [|c s IH]; intros n k m H; cbn [star] in H.
  - exists [], []. split; [reflexivity|]. now rewrite Nat.add_0_r.
  - destruct (p c).
    + destruct (star p s (S n) k) as [r|] eqn:E.
      * injection H as <-. destruct (IH _ _ _ E) as (pre & s' & -> & K).
        exists (c :: pre), s'. split; [reflexivity|].
        cbn [List.length]. now rewrite Nat.add_succ_r.
      * exists [], (c :: s). split; [reflexivity|]. now rewrite Nat.add_0_r.
    + exists [], (c :: s). split; [reflexivity|]. now rewrite Nat.add_0_r.
Qed.

Lemma matchAt_calls r :
  forall s n k m,
    matchAt r s n k = Some m ->
    exists pre s', s = pre ++ s' /\ k s' (n + List.length pre)%nat = Some m.
Proof.
  induction r as [|p|a IHa b IHb|a IHa b IHb|p]; intros s n k m H;
    cbn [matchAt] in H.
  - exists [], s. split; [reflexivity|]. now rewrite Nat.add_0_r.
  - destruct s as [|c s]; [discriminate|].
    destruct (p c); [|discriminate].
    exists [c], s. split; [reflexivity|].
    cbn [List.length]. now rewrite Nat.add_1_r.
  - destruct (IHa _ _ _ _ H) as (pre1 & s1 & -> & H1).
    destruct (IHb _ _ _ _ H1) as (pre2 & s2 & -> & H2).
    exists (pre1 ++ pre2), s2. split; [now rewrite app_assoc|].
    now rewrite length_app, Nat.add_assoc.
  - destruct (matchAt a s n k) as [r|] eqn:E.
    + injection H as <-. now apply IHa.
    + now apply IHb.
  - now apply (star_calls p).
Qed.

(** A consuming pattern hands over a strictly shorter text. *)
Lemma matchAt_consumes r :
  consuming r = true ->
  forall s n k m,
    matchAt r s n k = Some m ->
    exists pre s',
      pre <> [] /\ s = pre ++ s' /\ k s' (n + List.length pre)%nat = Some m.
Proof.
  induction r as [|p|a IHa b IHb|a IHa b IHb|p]; intros C s n k m H;
    cbn [consuming] in C; cbn [matchAt] in H; try discriminate.
  - destruct s as [|c s]; [discriminate|].
    destruct (p c); [|discriminate].
    exists [c], s. split; [discriminate|]. split; [reflexivity|].
    cbn [List.length]. now rewrite Nat.add_1_r.
  - destruct (consuming a) eqn:Ca.
    + destruct (IHa eq_refl _ _ _ _ H) as (pre1 & s1 & N & -> & H1).
      destruct (matchAt_calls _ _ _ _ _ H1) as (pre2 & s2 & -> & H2).
      exists (pre1 ++ pre2), s2. split.
      * destruct pre1; [contradiction | discriminate].
      * split; [now rewrite app_assoc|].
        now rewrite length_app, Nat.add_assoc.
    + cbn [orb] in C.
      destruct (matchAt_calls _ _ _ _ _ H) as (pre1 & s1 & -> & H1).
      destruct (IHb C _ _ _ _ H1) as (pre2 & s2 & N & -> & H2).
      exists (pre1 ++ pre2), s2. split.
      * destruct pre1; [exact N | discriminate].
      * split; [now rewrite app_assoc|].
        now rewrite length_app, Nat.add_assoc.
  - apply Bool.andb_true_iff in C as [Ca Cb].
    destruct (matchAt a s n k) as [r|] eqn:E.
    + injection H as <-. now apply IHa.
    + now apply IHb.
Qed.

(** What [search] finds for a consuming pattern is never empty. *)
Lemma search_chars_not_empty r :
  consuming r = true ->
  forall s x, search_chars r s = Some x -> x <> [].
Proof.
  intros C. induction s as [|c s IH]; intros x H; cbn [search_chars] in H.
  - destruct (exec r []) as [m|] eqn:E; [|discriminate].
    unfold exec in E.
    destruct (matchAt_consumes r C _ _ _ _ E) as (pre & s' & N & P & _).
    destruct pre; [contradiction | discriminate].
  - destruct (exec r (c :: s)) as [m|] eqn:E; [|now apply IH].
    injection H as <-. unfold exec in E.
    destruct (matchAt_consumes r C _ _ _ _ E) as (pre & s' & N & P & K).
    injection K as <-. rewrite P. cbn [Nat.add].
    rewrite firstn_app, Nat.sub_diag, firstn_all. cbn [firstn].
    rewrite app_nil_r. exact N.
Qed.

Lemma search_not_empty r s x :
  consuming r = true -> search r s = Some x -> x <> "".
Proof.
  intros C H. unfold search in H.
  destruct (search_chars r (chars s)) as [l|] eqn:E; [|discriminate].
  injection H as <-.
  pose proof (search_chars_not_empty r C _ _ E) as N.
  destruct l; [contradiction | discriminate].
Qed.

End RegexFacts.

(* ================================================================== *)
(** ** More on the classifier                                          *)
(* ================================================================== *)

Module ClassifierMore.
Import JsString JsNumber Dom WebScraper ClassifierSpec ClassifierFacts.
Import TextSpec RegexFacts.

Lemma hints_when c w h t :
  hints (when c w h t) = hints t ++ (if c then [h] else []).
Proof. destruct c; simpl; [reflexivity | now rewrite app_nil_r]. Qed.

Lemma length_if_hint (c : bool) (h : hint) :
  List.length (if c then [h] else []) = if c then 1%nat else 0%nat.
Proof. now destruct c. Qed.

(** The generator pattern never matches the empty text. *)
Lemma frameworkMatch_not_empty d name :
  frameworkMatch d = Some name -> name <> "".
Proof.
  unfold frameworkMatch. apply search_not_empty. reflexivity.
Qed.

Lemma confidence_zero_table (n : nat) :
  (n < 30)%nat ->
  PrimFloat.eqb (roundedConfidence (Z.of_nat n)) 0%float
  = (Z.of_nat n =? 0)%Z.
Proof.
  intros H.
  do 30 (destruct n as [|n]; [vm_compute; reflexivity|]).
  lia.
Qed.

Section Pages.

Variable load : string -> document.
Variable html : node -> string.

Lemma signals_hints source :
  let d := load source in
  hints (signals load html source) =
  (if hasMountPoint d then [HintMountPoint] else [])
  ++ (if (0 <? Z.of_nat (List.length (hydrationMatches source)))%Z
      then [HintHydration] else [])
  ++ (if positive_length (select d (HasAttr "data-reactroot"))
         || positive_length (select d (HasAttr "data-reactid"))
      then [HintReact] else [])
  ++ (if positive_length (select d (HasAttr "data-server-rendered"))
      then [HintVueSSR] else [])
  ++ (if positive_length (select d (HasAttr "ng-version"))
      then [HintAngular (attr (select d (HasAttr "ng-version")) "ng-version")]
      else [])
  ++ match frameworkMatch d with
     | Some name => [HintFramework name]
     | None => []
     end
  ++ (if (strlen (bodyText d) <? 100)%Z && (3 <=? scriptCount d)%Z
      then [HintFewTextManyScripts] else [])
  ++ (if (50000 <? scriptTotalLength html d)%Z
         && (strlen (bodyText d) <? 500)%Z
      then [HintScriptsOutweighText] else [])
  ++ (if noscriptHint d then [HintNoscript] else [])
  ++ (if (bodyChildren d =? 0)%Z
         || ((bodyChildren d <=? 2)%Z && (strlen (bodyText d) <? 50)%Z)
      then [HintEmptyBody] else []).
Proof.
  intros d. unfold signals. fold d.
  rewrite !hints_when.
  destruct (frameworkMatch d); cbn [bump hints];
    rewrite !hints_when; cbn [hints app];
    rewrite <- ?app_assoc; cbn [app]; rewrite ?app_nil_r; reflexivity.
Qed.

(** The two copies of [detectPageType] push the same hints. *)
Lemma legacy_signals_hints source :
  hints (FetchTs.signals load html source) = hints (signals load html source).
Proof.
  unfold FetchTs.signals, signals.
  rewrite !hints_when.
  destruct (frameworkMatch (load source)); cbn [bump hints];
    rewrite !hints_when; reflexivity.
Qed.

(** X3.  Every hint of [detectPageType] stands for 1 to 12 points of the
    score, and there are at most ten hints; so the list of hints is empty
    exactly when the confidence returned is 0. *)
Theorem hints_account_for_score :
  forall source : string,
    let r := WebScraper.detectPageType load html source in
    let s := score (signals load html source) in
    let n := Z.of_nat (List.length (PageTypeResult.hints r)) in
    (n <= 10)%Z
    /\ (n <= s <= 12 * n)%Z
    /\ match PageTypeResult.hints r with [] => true | _ => false end
       = PrimFloat.eqb (PageTypeResult.confidence r) 0%float.
Proof.
  intros source r s n.
  assert (N : n = Z.of_nat (List.length (hints (signals load html source))))
    by reflexivity.
  assert (R : (n <= 10 /\ n <= s <= 12 * n)%Z).
  { rewrite N. unfold s.
    rewrite signals_score, signals_hints. cbv zeta.
    pose proof (hydrationMatches_length source) as L.
    rewrite !length_app, !length_if_hint.
    destruct (frameworkMatch (load source)); cbn [isSome List.length];
      repeat match goal with
             | |- context [if ?c then _ else _] =>
                 let E := fresh in
                 destruct c eqn:E;
                 try (apply Z.ltb_lt in E); try (apply Z.ltb_ge in E)
             end; lia. }
  destruct R as (R1 & R2). split; [exact R1|]. split; [exact R2|].
  assert (Hs : (0 <= s <= 29)%Z) by apply signals_score_range.
  pose proof (confidence_zero_table (Z.to_nat s)) as T.
  rewrite Z2Nat.id in T by lia. specialize (T ltac:(lia)).
  unfold r, WebScraper.detectPageType.
  cbn [PageTypeResult.confidence PageTypeResult.hints].
  fold s. fold (rawConfidence s). fold (roundedConfidence s).
  rewrite T.
  change (hints (signals load html source))
    with (PageTypeResult.hints r) in N |- *.
  destruct (PageTypeResult.hints r) as [|h hs] eqn:E.
  - cbn [List.length] in N. symmetry. apply Z.eqb_eq. lia.
  - cbn [List.length] in N. symmetry. apply Z.eqb_neq. lia.
Qed.

(** X4.  The copy of [fetch.ts] and the classifier of [web-scraper.ts] give
    the same hints and the same framework on every page; the score of the
    latter is the score of the former plus at most 3, so whatever the
    copy of [fetch.ts] calls dynamic, [web-scraper.ts] calls dynamic. *)
Theorem legacy_classifier_agrees :
  forall source : string,
    let r := WebScraper.detectPageType load html source in
    let r' := FetchTs.detectPageType load html source in
    let s := score (signals load html source) in
    let s' := score (FetchTs.signals load html source) in
    PageTypeResult.hints r' = PageTypeResult.hints r
    /\ PageTypeResult.framework r' = PageTypeResult.framework r
    /\ (s' <= s <= s' + 3)%Z
    /\ implb (PageTypeResult.isDynamic r') (PageTypeResult.isDynamic r) = true.
Proof.
  intros source r r' s s'.
  assert (S : (s' <= s <= s' + 3)%Z).
  { unfold s, s'. rewrite signals_score, legacy_signals_score. cbv zeta.
    repeat match goal with
           | |- context [if ?c then _ else _] => destruct c
           end; lia. }
  split; [apply legacy_signals_hints|]. split; [reflexivity|].
  split; [exact S|].
  pose proof (signals_score_range load html source) as Hs.
  pose proof (legacy_signals_score_range load html source) as Hs'.
  fold s in Hs. fold s' in Hs'.
  destruct (confidence_of_score s ltac:(lia)) as (_ & _ & _ & G & _ & _ & _).
  destruct (confidence_of_score s' ltac:(lia)) as (_ & _ & _ & _ & _ & K & _).
  unfold r, r', WebScraper.detectPageType, FetchTs.detectPageType.
  cbn [PageTypeResult.isDynamic].
  fold s. fold s'. fold (rawConfidence s). fold (rawConfidence s').
  rewrite G, K.
  destruct (4 <=? s')%Z eqn:E; [|reflexivity].
  apply Z.leb_le in E. cbn [implb]. apply Z.leb_le. lia.
Qed.

(** X5.  The framework [detectPageType] reports is [Next.js] when the
    generator tag names any of the known frameworks or the text holds the
    Next.js hydration marker, else [Nuxt] when the text holds the Nuxt
    marker, else [undefined]: no other name is ever reported. *)
Theorem framework_is_next_or_nuxt :
  forall source : string,
    PageTypeResult.framework (WebScraper.detectPageType load html source)
    = if isSome (frameworkMatch (load source))
         || test (Lit "__NEXT_DATA__") source
      then Some "Next.js"
      else if test (Lit "__NUXT__") source then Some "Nuxt" else None.
Proof.
  intros source.
  unfold WebScraper.detectPageType, detectedFramework, hydrationMatches.
  cbn [PageTypeResult.framework].
  destruct (frameworkMatch (load source)) as [name|] eqn:F; cbn [isSome].
  - destruct (String.eqb name "") eqn:E; [|reflexivity].
    apply String.eqb_eq in E.
    now destruct (frameworkMatch_not_empty _ _ F).
  - cbn [orb hydrationPatterns filter].
    destruct (test (Lit "__NEXT_DATA__") source),
             (test (Lit "__NUXT__") source),
             (test (Lit "__INITIAL_STATE__") source),
             (test (Lit "__APOLLO_STATE__") source),
             (test (Lit "__REDUX_STATE__") source),
             (test (Lit "__VUE__") source); vm_compute; reflexivity.
Qed.

(** X6.  A page is reported dynamic exactly when its signals add up to 3
    points or more in [web-scraper.ts], and to 4 points or more in the
    copy of [fetch.ts]; the confidence is a tenth of the points, 1 from
    10 points on. *)
Theorem dynamic_from_three_points :
  forall source : string,
    let r := WebScraper.detectPageType load html source in
    let r' := FetchTs.detectPageType load html source in
    let s := score (signals load html source) in
    let s' := score (FetchTs.signals load html source) in
    PageTypeResult.isDynamic r = (3 <=? s)%Z
    /\ PageTypeResult.isDynamic r' = (4 <=? s')%Z
    /\ PageTypeResult.confidence r
       = PrimFloat.div (of_Z (Z.min s 10)) 10%float
    /\ PageTypeResult.confidence r'
       = PrimFloat.div (of_Z (Z.min s' 10)) 10%float.
Proof.
  intros source r r' s s'.
  pose proof (signals_score_range load html source) as Hs.
  pose proof (legacy_signals_score_range load html source) as Hs'.
  fold s in Hs. fold s' in Hs'.
  destruct (confidence_of_score s ltac:(lia)) as (E & _ & _ & G & _ & _ & _).
  destruct (confidence_of_score s' ltac:(lia))
    as (E' & _ & _ & _ & _ & K & _).
  unfold r, r', WebScraper.detectPageType, FetchTs.detectPageType.
  cbn [PageTypeResult.isDynamic PageTypeResult.confidence].
  fold s. fold s'. fold (rawConfidence s). fold (rawConfidence s').
  fold (roundedConfidence s). fold (roundedConfidence s').
  now rewrite G, K, E, E'.
Qed.

End Pages.

End ClassifierMore.

(* ================================================================== *)
(** ** More on the extractor, the older interface and the tools        *)
(* ================================================================== *)

Module ExtractorMore.
Import JsString JsNumber Dom Async WebScraper ExtractorSpec.
Import Extractor (collectLinks_in_order, collectImages_in_order, slice0_nat,
                  slice0_ten, capped_default).

Lemma slice0_prefix {A : Type} (l : list A) (c : number) :
  exists k : nat, slice0 l c = firstn k l.
Proof. unfold slice0. eexists. reflexivity. Qed.

Lemma capped_prefix {A : Type} (l : list A) (count : option number) :
  exists k : nat, capped count l = firstn k l.
Proof.
  unfold capped. destruct count as [c|]; [destruct (truthy c)|];
    apply slice0_prefix.
Qed.

Lemma linksInOrder_have_href d : forallb hasHref (linksInOrder d) = true.
Proof.
  unfold linksInOrder. induction (select d (ByTag "a")) as [|el els IH].
  - reflexivity.
  - cbn [flat_map]. rewrite forallb_app, IH, Bool.andb_true_r.
    unfold linkOf, orUndefined.
    destruct (attr [el] "href") as [v|]; [|reflexivity].
    destruct (String.eqb v "") eqn:E; [reflexivity|].
    unfold hasHref. cbn [forallb Link.href]. now rewrite E.
Qed.

Lemma imagesInOrder_have_src d : forallb hasSrc (imagesInOrder d) = true.
Proof.
  unfold imagesInOrder. induction (select d (ByTag "img")) as [|el els IH].
  - reflexivity.
  - cbn [flat_map]. rewrite forallb_app, IH, Bool.andb_true_r.
    unfold imageOf, orUndefined.
    destruct (attr [el] "src") as [v|]; [|reflexivity].
    destruct (String.eqb v "") eqn:E; [reflexivity|].
    unfold hasSrc. cbn [forallb Image.src]. now rewrite E.
Qed.

Lemma forallb_firstn {A : Type} (f : A -> bool) (k : nat) (l : list A) :
  forallb f l = true -> forallb f (firstn k l) = true.
Proof.
  intros H. rewrite <- (firstn_skipn k l), forallb_app in H.
  now apply Bool.andb_true_iff in H as [H _].
Qed.

Section Pages.

Variable load : string -> document.
Variable html : node -> string.

Lemma summary_lists_are_prefixes_aux :
  forall (url source : string) (linkCount imageCount : option number),
  exists k j : nat,
    summarize load url source linkCount imageCount
    = {| PageSummary.url := url;
         PageSummary.title := text (select (load source) (ByTag "title"));
         PageSummary.links := firstn k (linksInOrder (load source));
         PageSummary.images := firstn j (imagesInOrder (load source)) |}.
Proof.
  intros url source linkCount imageCount. unfold summarize.
  rewrite collectLinks_in_order, collectImages_in_order.
  destruct (capped_prefix (linksInOrder (load source)) linkCount) as [k ->].
  destruct (capped_prefix (imagesInOrder (load source)) imageCount) as [j ->].
  now exists k, j.
Qed.

(** X7.  Whatever the caps given to [fetchPageSummary] (negative, fractional,
    not a number, infinite or missing) and whatever the network answers,
    the links and the images of a summary are the first ones of the page
    fetched, in document order: a prefix of the page's links and a prefix
    of its images. *)
Theorem summary_lists_are_prefixes :
  forall (w : world) (url : string) (linkCount imageCount : option number),
    match snd (run w (fetchPageSummary load url linkCount imageCount)) with
    | Fulfilled s =>
        exists (source : string) (k j : nat),
          http w url = Some source
          /\ PageSummary.links s = firstn k (linksInOrder (load source))
          /\ PageSummary.images s = firstn j (imagesInOrder (load source))
    | Rejected e => http w url = None
    end.
Proof.
  intros w url linkCount imageCount.
  unfold fetchPageSummary, fetch_text. cbn [bind run].
  destruct (http w url) as [source|]; [|reflexivity]. cbn [run snd].
  destruct (summary_lists_are_prefixes_aux url source linkCount imageCount)
    as (k & j & E).
  exists source, k, j. rewrite E. repeat split.
Qed.

(** X8.  No link without an address and no image without a source is ever
    returned: every link of [fetchLinks] and of a summary has a non-empty
    [href], every image of a summary a non-empty [src]. *)
Theorem links_and_images_have_addresses :
  forall (url source : string) (linkCount imageCount : option number),
    forallb hasHref (collectLinks (load source)) = true
    /\ forallb hasHref
         (PageSummary.links
            (summarize load url source linkCount imageCount)) = true
    /\ forallb hasSrc
         (PageSummary.images
            (summarize load url source linkCount imageCount)) = true.
Proof.
  intros url source linkCount imageCount.
  destruct (summary_lists_are_prefixes_aux url source linkCount imageCount)
    as (k & j & E).
  rewrite E. cbn [PageSummary.links PageSummary.images].
  rewrite collectLinks_in_order.
  split; [apply linksInOrder_have_href|].
  split; apply forallb_firstn;
    [apply linksInOrder_have_href | apply imagesInOrder_have_src].
Qed.

Lemma truthy_of_integer (c : number) (z : Z) :
  ToIntegerOrInfinity c = Finite z -> z <> 0%Z -> truthy c = true.
Proof.
  unfold ToIntegerOrInfinity, truthy, Prim2SF. intros H N.
  destruct (PrimFloat.is_nan c); [injection H as <-; contradiction|].
  destruct (PrimFloat.is_zero c); [injection H as <-; contradiction|].
  reflexivity.
Qed.

Lemma slice0_negative {A : Type} (l : list A) (c : number) (k : nat) :
  ToIntegerOrInfinity c = Finite (- Z.of_nat (S k)) ->
  slice0 l c = firstn (List.length l - S k) l.
Proof.
  intros H. unfold slice0. rewrite H.
  destruct (- Z.of_nat (S k) <? 0)%Z eqn:E; [|apply Z.ltb_ge in E; lia].
  f_equal. lia.
Qed.

(** X9.  A cap of [-k], for [k] at least 1, given to [fetchPageSummary]
    leaves out the last [k] links (or images) of the page and returns all
    the others, in order: as many as the page has, less [k], and none when
    the page has [k] or fewer. *)
Theorem negative_cap_drops_the_last :
  forall (url source : string) (c : number) (k : nat)
         (other : option number),
    ToIntegerOrInfinity c = Finite (- Z.of_nat (S k)) ->
    let links := linksInOrder (load source) in
    let images := imagesInOrder (load source) in
    PageSummary.links (summarize load url source (Some c) other)
    = firstn (List.length links - S k) links
    /\ List.length (PageSummary.links (summarize load url source (Some c) other))
       = (List.length links - S k)%nat
    /\ PageSummary.images (summarize load url source other (Some c))
       = firstn (List.length images - S k) images
    /\ List.length
         (PageSummary.images (summarize load url source other (Some c)))
       = (List.length images - S k)%nat.
Proof.
  intros url source c k other H links images.
  assert (T : truthy c = true) by (apply (truthy_of_integer c _ H); lia).
  unfold summarize, capped. cbn [PageSummary.links PageSummary.images].
  rewrite T, collectLinks_in_order, collectImages_in_order.
  rewrite !(slice0_negative _ c k H). fold links images.
  rewrite !length_firstn.
  repeat split; lia.
Qed.

(** X10.  The older interface of [fetch.ts] agrees with [web-scraper.ts]:
    [_fetch_meta] returns what [fetchPageMetadata] returns, and [_fetch]
    makes the same request as [fetchPageSummary] without caps and returns
    its url, its title and the addresses of its links and images. *)
Theorem legacy_interface_agrees :
  forall (w : world) (url : string),
    run w (FetchTs._fetch_meta load url) = run w (fetchPageMetadata load url)
    /\ fst (run w (FetchTs._fetch load url))
       = fst (run w (fetchPageSummary load url None None))
    /\ snd (run w (FetchTs._fetch load url))
       = mapOutcome addressesOnly
           (snd (run w (fetchPageSummary load url None None))).
Proof.
  intros w url.
  assert (H : forall els acc,
             fold_left FetchTs.pushHref els acc
             = acc ++ map Link.href (flat_map linkOf els)).
  { induction els as [|el els IH]; intros acc; cbn [fold_left flat_map map].
    - now rewrite app_nil_r.
    - rewrite IH, map_app. unfold FetchTs.pushHref, linkOf.
      destruct (orUndefined (attr [el] "href")); cbn [map app Link.href].
      + now rewrite <- app_assoc.
      + reflexivity. }
  assert (I : forall els acc,
             fold_left FetchTs.pushSrc els acc
             = acc ++ map Image.src (flat_map imageOf els)).
  { induction els as [|el els IH]; intros acc; cbn [fold_left flat_map map].
    - now rewrite app_nil_r.
    - rewrite IH, map_app. unfold FetchTs.pushSrc, imageOf.
      destruct (orUndefined (attr [el] "src")); cbn [map app Image.src].
      + now rewrite <- app_assoc.
      + reflexivity. }
  unfold FetchTs._fetch_meta, FetchTs._fetch, fetchPageMetadata,
    fetchPageSummary, fetch_text.
  cbn [bind run]. destruct (http w url) as [source|]; cbn [run fst snd].
  - split; [reflexivity|]. split; [reflexivity|].
    cbn [mapOutcome]. f_equal. unfold addressesOnly, summarize.
    cbn [PageSummary.url PageSummary.title PageSummary.links
         PageSummary.images].
    rewrite !capped_default, !slice0_ten, H, I.
    rewrite collectLinks_in_order, collectImages_in_order.
    cbn [app]. unfold linksInOrder, imagesInOrder.
    now rewrite !firstn_map.
  - repeat split.
Qed.

(** X11.  Through the four link and text tools registered at the head of
    [index.ts] the classifier never decides.  [fetch_links] and
    [fetch_page_text] make the static request only and extract from its
    answer, even on a page [detectPageType] calls dynamic;
    [fetch_links_headless] and [fetch_page_text_headless] always ask the
    browser once the static request has succeeded, even on a static page,
    and extract from the rendering. *)
Theorem tools_never_consult_the_classifier :
  forall (w : world) (url : string),
    run w (Index.fetch_links load html url)
    = match http w url with
      | Some source =>
          ([StaticFetch url],
           Fulfilled
             {| Index.content :=
                  [Index.LinksFound
                     (List.length (linksInOrder (load source)))];
                Index.structuredContent := linksInOrder (load source) |})
      | None => ([StaticFetch url], Rejected (StaticFetch url))
      end
    /\ run w (Index.fetch_page_text load html url)
       = match http w url with
         | Some source =>
             let result :=
               normalizeText (text (select (load source) (ByTag "body"))) in
             ([StaticFetch url],
              Fulfilled
                {| Index.content := [Index.Excerpt (substring 0 200 result)];
                   Index.structuredContent := result |})
         | None => ([StaticFetch url], Rejected (StaticFetch url))
         end
    /\ run w (Index.fetch_links_headless load html url)
       = match http w url, rendered w url with
         | Some _, Some final =>
             ([StaticFetch url; BrowserRender url],
              Fulfilled
                {| Index.content :=
                     [Index.LinksFound
                        (List.length (linksInOrder (load final)))];
                   Index.structuredContent := linksInOrder (load final) |})
         | Some _, None =>
             ([StaticFetch url; BrowserRender url],
              Rejected (BrowserRender url))
         | None, _ => ([StaticFetch url], Rejected (StaticFetch url))
         end
    /\ run w (Index.fetch_page_text_headless load html url)
       = match http w url, rendered w url with
         | Some _, Some final =>
             let result :=
               normalizeText (text (select (load final) (ByTag "body"))) in
             ([StaticFetch url; BrowserRender url],
              Fulfilled
                {| Index.content := [Index.Excerpt (substring 0 200 result)];
                   Index.structuredContent := result |})
         | Some _, None =>
             ([StaticFetch url; BrowserRender url],
              Rejected (BrowserRender url))
         | None, _ => ([StaticFetch url], Rejected (StaticFetch url))
         end.
Proof.
  intros w url.
  unfold Index.fetch_links, Index.fetch_page_text, Index.fetch_links_headless,
    Index.fetch_page_text_headless, fetchLinks, fetchPageText, fetch_text,
    getRenderedHtml, useHeadless.
  cbn [bind run].
  destruct (http w url) as [source|]; [|repeat split].
  cbn [bind run].
  destruct (rendered w url) as [final|]; cbn [bind run];
    rewrite ?collectLinks_in_order; repeat split.
Qed.

End Pages.

(** X9, witness: on the page of fifteen anchors, a cap of [-2] returns the
    first thirteen links; a cap of [-15] returns none. *)
Lemma negative_cap_on_fifteen_anchors :
  ToIntegerOrInfinity (-2)%float = Finite (- Z.of_nat 2)
  /\ PageSummary.links
       (summarize Samples.load "http://x/" Samples.anchorsSource
                  (Some (-2)%float) None)
     = firstn 13 (linksInOrder (Samples.load Samples.anchorsSource))
  /\ List.length
       (PageSummary.links
          (summarize Samples.load "http://x/" Samples.anchorsSource
                     (Some (-2)%float) None)) = 13%nat
  /\ ToIntegerOrInfinity (-15)%float = Finite (- Z.of_nat 15)
  /\ PageSummary.links
       (summarize Samples.load "http://x/" Samples.anchorsSource
                  (Some (-15)%float) None)
     = [].
Proof.
  assert (H : ToIntegerOrInfinity (-2)%float = Finite (- Z.of_nat 2))
    by (vm_compute; reflexivity).
  assert (K : ToIntegerOrInfinity (-15)%float = Finite (- Z.of_nat 15))
    by (vm_compute; reflexivity).
  destruct (negative_cap_drops_the_last Samples.load "http://x/"
              Samples.anchorsSource (-2)%float 1 None H) as (E & N & _).
  destruct (negative_cap_drops_the_last Samples.load "http://x/"
              Samples.anchorsSource (-15)%float 14 None K) as (F & _).
  split; [exact H|]. split; [|split; [|split; [exact K|]]].
  - refine (eq_trans E _). vm_compute. reflexivity.
  - refine (eq_trans N _). vm_compute. reflexivity.
  - refine (eq_trans F _). vm_compute. reflexivity.
Defined.

End ExtractorMore.

(* ================================================================== *)
(** ** More on the browser session                                     *)
(* ================================================================== *)

Module SessionMore.
Import Browser SessionSpec.
Import Session (set_nth_Forall, nth_error_Forall).




Lemma resume_without_stealth body i st :
  stealthFetches st = 0%nat ->
  stealthScript st = None ->
  Forall (fun p => awaitsStealth p = false) (calls st) ->
  stealthFetches (resume false body i st) = 0%nat
  /\ stealthScript (resume false body i st) = None
  /\ Forall (fun p => awaitsStealth p = false)
            (calls (resume false body i st)).
Proof.
  intros A B F. unfold resume.
  destruct (nth_error (calls st) i) as [p|] eqn:E; [|now repeat split].
  pose proof (nth_error_Forall _ _ _ _ F E) as C.
  destruct p; cbn [awaitsStealth] in C; try discriminate.
  - destruct (noSession st).
    + repeat split; try assumption. now apply set_nth_Forall.
    + destruct (browser st); [|now repeat split].
      repeat split; try assumption. now apply set_nth_Forall.
  - repeat split; try assumption. now apply set_nth_Forall.
  - repeat split; try assumption. now apply set_nth_Forall.
  - repeat split; try assumption. now apply set_nth_Forall.
  - repeat split; try assumption. now apply set_nth_Forall.
  - now repeat split.
Qed.

(** X14.  With [stealth] switched off in the configuration, the stealth script
    is never requested and never stored, however many calls of
    [getBrowser] there are and in whatever order they resume. *)
Theorem no_stealth_no_request :
  forall (body : string) (schedule : list nat) (n : nat),
    stealthFetches (exec false body schedule (initial n)) = 0%nat
    /\ stealthScript (exec false body schedule (initial n)) = None.
Proof.
  intros body schedule n.
  assert (G : forall st,
             stealthFetches st = 0%nat ->
             stealthScript st = None ->
             Forall (fun p => awaitsStealth p = false) (calls st) ->
             stealthFetches (exec false body schedule st) = 0%nat
             /\ stealthScript (exec false body schedule st) = None).
  { induction schedule as [|i schedule IH]; intros st A B F; [now split|].
    cbn [exec fold_left].
    destruct (resume_without_stealth body i st A B F) as (A' & B' & F').
    exact (IH _ A' B' F'). }
  apply G; [reflexivity | reflexivity |].
  apply Forall_forall. intros p H. cbn in H. apply repeat_spec in H.
  now subst p.
Qed.

Lemma resume_stealth_stored stealth body i st :
  stealthScript st <> None ->
  stealthScript (resume stealth body i st) <> None
  /\ stealthFetches (resume stealth body i st) = stealthFetches st.
Proof.
  intros S. unfold resume.
  destruct (nth_error (calls st) i) as [p|]; [|now split].
  destruct p.
  - destruct (noSession st); [now split|].
    destruct (browser st); now split.
  - now split.
  - destruct stealth; [|now split].
    destruct (stealthScript st) eqn:E; [|contradiction].
    cbn. rewrite E. split; [discriminate | reflexivity].
  - cbn. split; [discriminate | reflexivity].
  - now split.
  - now split.
  - now split.
Qed.

(** X15.  Once the stealth script has been stored it is never requested again,
    however many calls of [getBrowser] follow and in whatever order they
    resume. *)
Theorem stored_stealth_script_is_kept :
  forall (stealth : bool) (body script : string) (schedule : list nat)
         (st : state),
    stealthScript st = Some script ->
    stealthFetches (exec stealth body schedule st) = stealthFetches st
    /\ stealthScript (exec stealth body schedule st) <> None.
Proof.
  intros stealth body script schedule st H.
  assert (S : stealthScript st <> None) by (rewrite H; discriminate).
  clear H. revert st S.
  induction schedule as [|i schedule IH]; intros st S; [now split|].
  cbn [exec fold_left].
  destruct (resume_stealth_stored stealth body i st S) as (S' & E).
  destruct (IH _ S') as (E' & S'').
  unfold exec in E', S''. rewrite E', E. now split.
Qed.

(** X15, witness: after a first call has run to its end the script is stored;
    a second call, begun afterwards, does not request it. *)
Lemma second_call_does_not_request_the_script :
  let st := exec true "stealth" [0; 0; 0; 0; 0]%nat (initial 2) in
  stealthScript st = Some "stealth"
  /\ stealthFetches (exec true "stealth" [1; 1]%nat st) = 1%nat.
Proof.
  assert (H : stealthScript
                (exec true "stealth" [0; 0; 0; 0; 0]%nat (initial 2))
              = Some "stealth") by reflexivity.
  split; [exact H|].
  destruct (stored_stealth_script_is_kept true "stealth" "stealth"
              [1; 1]%nat _ H) as (E & _).
  refine (eq_trans E _). reflexivity.
Defined.

(** X12, witness of [Session.concurrent_calls_launch_each]: two calls that
    have both begun before either assigns [browser]. *)
Lemma two_calls_begun_before_assignment :
  let st := exec true "stealth" [0; 1]%nat (initial 2) in
  browser st = None
  /\ Forall (fun p => started p = true) (calls st)
  /\ List.length
       (launches (exec true "stealth" [0; 1; 0; 1; 0; 1; 0; 1]%nat st))
     = 2%nat.
Proof.
  assert (B : browser (exec true "stealth" [0; 1]%nat (initial 2)) = None)
    by reflexivity.
  assert (F : Forall (fun p => started p = true)
                (calls (exec true "stealth" [0; 1]%nat (initial 2))))
    by (repeat constructor).
  split; [exact B|]. split; [exact F|].
  exact (Session.concurrent_calls_launch_each true "stealth" 2 [0; 1]%nat
           [0; 1; 0; 1; 0; 1; 0; 1]%nat B F).
Defined.

End SessionMore.

(* ================================================================== *)
(** ** The redirect links of Bing                                      *)
(* ================================================================== *)

Module BingFacts.
Import JsString Bing BingSpec.
Import Normalization (replaceFrom_unfold).

Lemma replaceFrom_char (c d : ascii) (l : list ascii) :
  replaceFrom (Chr c) [d] l 0 = map (fun x => if is_char c x then d else x) l.
Proof.
  induction l as [|x l IH]; [reflexivity|].
  rewrite replaceFrom_unfold. unfold exec, Chr. cbn [matchAt map].
  destruct (is_char c x); cbn [app]; now rewrite <- IH.
Qed.

Lemma alphabet_table (k : nat) :
  (k < 64)%nat ->
  let c := toStandard (urlAlphabet (N.of_nat k)) in
  sextet c = Some (N.of_nat k)
  /\ isAsciiWhitespace c = false
  /\ is_char "="%char c = false.
Proof.
  intros H.
  do 64 (destruct k as [|k]; [vm_compute; repeat split|]).
  lia.
Qed.

Lemma alphabet_facts (n : N) :
  (n < 64)%N ->
  sextet (toStandard (urlAlphabet n)) = Some n
  /\ isAsciiWhitespace (toStandard (urlAlphabet n)) = false
  /\ is_char "="%char (toStandard (urlAlphabet n)) = false.
Proof.
  intros H. pose proof (alphabet_table (N.to_nat n)) as T.
  cbv zeta in T. rewrite N2Nat.id in T. apply T. lia.
Qed.

Lemma byte_bound (a : ascii) : (N_of_ascii a < 256)%N.
Proof. apply N_ascii_bounded. Qed.

(** Goals on quotients and remainders by constants. *)
Ltac euclid := zify; Z.to_euclidean_division_equations; lia.

(** A byte, seen as the number below 256 it stands for. *)
Ltac as_number a x :=
  let B := fresh "B" in
  let E := fresh "E" in
  pose proof (byte_bound a) as B;
  pose proof (ascii_N_embedding a) as E;
  generalize dependent (N_of_ascii a); intros x B E; subst a.

(** Bytes to sextets and back, three bytes at a time. *)
Lemma sextets_round_trip n :
  forall l,
    (List.length l <= n)%nat ->
    bytesOfSextets (sextetsOfBytes l) = l
    /\ Forall (fun s => (s < 64)%N) (sextetsOfBytes l)
    /\ (List.length (sextetsOfBytes l) mod 4 =? 1)%nat = false.
Proof.
  induction n as [|n IH]; intros l H.
  - destruct l; [repeat split; constructor | simpl in H; lia].
  - destruct l as [|a [|b [|c rest]]].
    + repeat split; constructor.
    + cbn [sextetsOfBytes bytesOfSextets]. cbv zeta. clear H.
      as_number a x.
      split; [|split].
      * f_equal. f_equal. euclid.
      * repeat constructor; euclid.
      * reflexivity.
    + cbn [sextetsOfBytes bytesOfSextets]. cbv zeta. clear H.
      as_number a x. as_number b y.
      split; [|split].
      * f_equal; [|f_equal]; f_equal; euclid.
      * repeat constructor; euclid.
      * reflexivity.
    + cbn [List.length] in H.
      destruct (IH rest ltac:(lia)) as (R & F & M). clear H IH.
      cbn [sextetsOfBytes bytesOfSextets]. cbv zeta.
      rewrite R. clear R.
      as_number a x. as_number b y. as_number c z.
      split; [|split].
      * f_equal; [|f_equal; [|f_equal]]; f_equal; euclid.
      * repeat (constructor; [euclid|]). exact F.
      * cbn [List.length].
        replace (S (S (S (S (List.length (sextetsOfBytes rest))))))
          with (List.length (sextetsOfBytes rest) + 1 * 4)%nat by lia.
        rewrite Nat.Div0.mod_add. exact M.
Qed.

Lemma filter_all {A : Type} (f : A -> bool) (l : list A) :
  Forall (fun x => f x = true) l -> filter f l = l.
Proof.
  induction 1 as [|x l H _ IH]; [reflexivity|].
  cbn [filter]. now rewrite H, IH.
Qed.

Lemma withoutPadding_unpadded (l : list ascii) :
  Forall (fun c => is_char "="%char c = false) l -> withoutPadding l = l.
Proof.
  intros F. unfold withoutPadding.
  assert (G : forall c, In c (rev l) -> is_char "="%char c = false).
  { intros c H. apply in_rev in H. rewrite Forall_forall in F. now apply F. }
  destruct (rev l) as [|c1 [|c2 r]]; [reflexivity| |].
  - now rewrite (G c1 (or_introl eq_refl)).
  - now rewrite (G c1 (or_introl eq_refl)).
Qed.

Lemma standard_text (ns : list N) :
  Forall (fun s => (s < 64)%N) ns ->
  let l := map toStandard (map urlAlphabet ns) in
  filter (fun c => negb (isAsciiWhitespace c)) l = l
  /\ withoutPadding l = l
  /\ sextets l = Some ns.
Proof.
  intros F l. subst l. split; [|split].
  - apply filter_all. rewrite map_map. apply Forall_map.
    eapply Forall_impl; [|exact F]. intros n H.
    destruct (alphabet_facts n H) as (_ & W & _). now rewrite W.
  - apply withoutPadding_unpadded. rewrite map_map. apply Forall_map.
    eapply Forall_impl; [|exact F]. intros n H.
    now destruct (alphabet_facts n H) as (_ & _ & P).
  - induction F as [|n ns H _ IH]; [reflexivity|].
    cbn [map sextets]. rewrite IH.
    destruct (alphabet_facts n H) as (S & _ & _). now rewrite S.
Qed.

(** [atob] undoes the encoding, once its two characters are put back. *)
Lemma atob_standard (target : string) :
  atob (str (map toStandard (chars (base64url target)))) = Some target.
Proof.
  unfold atob, base64url, chars, str.
  rewrite !list_ascii_of_string_of_list_ascii.
  destruct (sextets_round_trip _ (list_ascii_of_string target) (le_n _))
    as (R & F & M).
  destruct (standard_text _ F) as (W & P & S). cbv zeta in W, P, S.
  rewrite W.
  assert (L : List.length
                (map toStandard
                   (map urlAlphabet
                      (sextetsOfBytes (list_ascii_of_string target))))
              = List.length (sextetsOfBytes (list_ascii_of_string target)))
    by now rewrite !length_map.
  rewrite P.
  match goal with
  | |- context [if ?c then ?x else ?x] =>
      replace (if c then x else x) with x by now destruct c
  end.
  rewrite L, M, S, R.
  now rewrite string_of_list_ascii_of_string.
Qed.

Lemma replaced_is_standard (encoded : string) :
  replaceAll (Chr "-"%char) "+" (replaceAll (Chr "_"%char) "/" encoded)
  = str (map toStandard (chars encoded)).
Proof.
  unfold replaceAll, chars, str.
  rewrite list_ascii_of_string_of_list_ascii.
  cbn [list_ascii_of_string].
  rewrite !replaceFrom_char, map_map. reflexivity.
Qed.

Lemma redirectParameter_stripped (target : string) :
  replaceAtStart (Lit "a1") "" (redirectParameter target) = base64url target.
Proof.
  unfold replaceAtStart, redirectParameter.
  cbn. now rewrite string_of_list_ascii_of_string.
Qed.

Lemma narrow_units (s : string) : narrow (units s) = Some s.
Proof.
  unfold narrow, units, chars, str.
  assert (B : forallb (fun u => (u <? 256)%N)
                (map N_of_ascii (list_ascii_of_string s)) = true).
  { apply forallb_forall. intros u H. apply in_map_iff in H as (a & <- & _).
    apply N.ltb_lt, byte_bound. }
  rewrite B, map_map. f_equal.
  rewrite <- (string_of_list_ascii_of_string s) at 2. f_equal.
  rewrite <- (map_id (list_ascii_of_string s)) at 2.
  apply map_ext. intros a. apply ascii_N_embedding.
Qed.

(** X16.  [decodeBingUrl] gives back the address a redirect link stands for:
    when [new URLSearchParams(link).get('u')], the value of the first
    field named [u] of the whole text of the link cut at its [&], is [a1]
    followed by the base64 of the address, written with [-] and [_] and
    without padding, the result is that address, whatever bytes it is made
    of. *)
Theorem decodeBingUrl_round_trip :
  forall link target : string,
    get (URLSearchParams link) "u" = Some (units (redirectParameter target)) ->
    decodeBingUrl link = target.
Proof.
  intros link target H. unfold decodeBingUrl. cbv zeta. rewrite H.
  rewrite narrow_units.
  assert (E : exists x r, units (redirectParameter target) = x :: r)
    by (do 2 eexists; reflexivity).
  destruct E as (x & r & ->).
  rewrite redirectParameter_stripped, replaced_is_standard.
  now rewrite atob_standard.
Qed.

(** X16, witness: a link to [https://example.com/?a=1], with [u] after
    other parameters as Bing writes it. *)
Lemma decodeBingUrl_example :
  get (URLSearchParams redirectLink) "u"
  = Some (units (redirectParameter "https://example.com/?a=1"))
  /\ decodeBingUrl redirectLink = "https://example.com/?a=1".
Proof.
  assert (H : get (URLSearchParams redirectLink) "u"
              = Some (units (redirectParameter "https://example.com/?a=1")))
    by (vm_compute; reflexivity).
  split; [exact H|].
  exact (decodeBingUrl_round_trip _ _ H).
Defined.

(** The parser is given the whole link, not its query: when [u] is the
    first parameter, the field is named by all the text before its [=],
    no field is named [u], and the link comes back as it is.  A text that
    is a query alone is decoded. *)
Lemma decodeBingUrl_first_parameter :
  get (URLSearchParams shortLink) "u" = None
  /\ decodeBingUrl shortLink = shortLink
  /\ decodeBingUrl "?u=a1aHR0cHM6Ly9leGFtcGxlLmNvbS8_YT0x"
     = "https://example.com/?a=1"
  /\ decodeBingUrl "https://www.bing.com/ck/a" = "https://www.bing.com/ck/a".
Proof. vm_compute. repeat split. Qed.

End BingFacts.
